(** * Bookish Atelier API: a shallow embedding of [main.py]

    The program is a FastAPI application over a MongoDB collection.  The
    development follows the layout of the source file:

    - Python values, the builtins the source calls ([dict.get], [float],
      [list], [str], [or]) and exceptions;
    - the pydantic models [ProductIn] and [Product];
    - [serialize_product];
    - the document store (the [db] handle and the driver calls made on it);
    - [seed_products_if_empty];
    - the route handlers and the request binding FastAPI performs for them;
    - the properties of the specification, one theorem per claim.

    Numbers.  A Python [float] is modelled by a rational: the program never
    computes with floats, it only copies them and compares them with the
    constants 0 and 5.  NaN and the infinities are outside the model.

    Values.  A stored document holds nulls, booleans, integers, floats,
    texts, lists, dictionaries and ObjectIds; the other kinds the store
    can hold (binary data, dates, ...) are outside the model.

    Text.  A Python [str] is a [string]; one [ascii] stands for one
    character.  The only slicing the program performs is [str(e)[:50]].

    Libraries.  Three routines the program relies on are computed on the
    inputs whose treatment is plain, and taken from the world elsewhere
    (see [library]), so that the properties hold whatever the libraries
    do there: the text [str] prints for a float or a container, the
    reading of a query text as an integer beyond the plain spelling, and
    the store's regular expressions beyond the fragment given below. *)

From Stdlib Require Import ZArith QArith String Ascii List Lia.
From stdpp Require Import gmap strings list fin_maps pretty.

Set Warnings "-register-all".
Local Open Scope string_scope.
Local Open Scope Z_scope.

(** ** Python values *)

Inductive value : Type :=
  | VNone
  | VBool (b : bool)
  | VInt (z : Z)
  | VFloat (q : Q)
  | VStr (s : string)
  | VList (l : list value)
  | VDict (d : gmap string value)
  | VObjectId (hex : string).

(** A stored document and a keyword dictionary are Python dicts. *)
Abbreviation document := (gmap string value).

(** A dict display [{k1: v1, ...}] with distinct keys. *)
Definition dict (items : list (string * value)) : document := list_to_map items.

(** ** Exceptions *)

Inductive loc_item : Type :=
  | LField (name : string)
  | LIndex (i : nat).

(** One entry of a pydantic [ValidationError]: where, and which rule. *)
Record error_detail : Type := mk_error {
  loc : list loc_item;
  etype : string
}.

Inductive pyclass : Type :=
  | TypeError
  | ValueError
  | AttributeError
  | InvalidId
  | DuplicateKeyError
  | PyMongoError
  | PlainException.

Inductive exn : Type :=
  | PyErr (cls : pyclass) (msg : string)
  | ValidationError (errors : list error_detail)
  | HTTPException (status_code : Z) (detail : string).

(** [str(e)].  The multi-line report pydantic prints for a
    [ValidationError] is not reproduced: no path of the program renders one. *)
Definition exn_str (e : exn) : string :=
  match e with
  | PyErr _ msg => msg
  | ValidationError errors => pretty (length errors) +:+ " validation errors"
  | HTTPException code detail => pretty code +:+ ": " +:+ detail
  end.

(** Computations that may raise. *)
Definition result (A : Type) : Type := exn + A.

Definition Ok {A} (a : A) : result A := inr a.
Definition Raise {A} (e : exn) : result A := inl e.

Definition rbind {A B} (r : result A) (k : A -> result B) : result B :=
  match r with
  | inl e => inl e
  | inr a => k a
  end.

Declare Scope result_scope.
Delimit Scope result_scope with result.
Notation "'let?' x ':=' r 'in' k" := (rbind r (fun x => k))
  (at level 10, x name, r at level 100, k at level 200) : result_scope.
Local Open Scope result_scope.

(** ** Text helpers *)

Definition chars (s : string) : list ascii := list_ascii_of_string s.

Definition is_digit (c : ascii) : bool :=
  let n := N_of_ascii c in ((48 <=? n) && (n <=? 57))%N.

Definition is_upper (c : ascii) : bool :=
  let n := N_of_ascii c in ((65 <=? n) && (n <=? 90))%N.

Definition is_lower (c : ascii) : bool :=
  let n := N_of_ascii c in ((97 <=? n) && (n <=? 122))%N.

Definition is_alnum (c : ascii) : bool := is_digit c || is_upper c || is_lower c.

Definition is_space (c : ascii) : bool :=
  let n := N_of_ascii c in ((n =? 32) || ((9 <=? n) && (n <=? 13)))%N.

(** ASCII case folding, the folding of the regular expression option [i]
    on the characters of the model. *)
Definition lower (c : ascii) : ascii :=
  if is_upper c then ascii_of_N (N_of_ascii c + 32) else c.

Fixpoint drop_spaces (l : list ascii) : list ascii :=
  match l with
  | c :: l' => if is_space c then drop_spaces l' else l
  | [] => []
  end.

Definition strip (l : list ascii) : list ascii :=
  rev (drop_spaces (rev (drop_spaces l))).

Fixpoint digits_value (acc : Z) (l : list ascii) : option Z :=
  match l with
  | [] => Some acc
  | c :: l' =>
      if is_digit c
      then digits_value (10 * acc + Z.of_N (N_of_ascii c - 48)) l'
      else None
  end.

Definition split_sign (l : list ascii) : bool * list ascii :=
  match l with
  | "-"%char :: l' => (true, l')
  | "+"%char :: l' => (false, l')
  | _ => (false, l)
  end.

(** The plain spelling of an integer: an optional sign and then digits
    only, at most 18 characters in all.  Every reading of a text as an
    integer gives a text in this spelling its decimal value; [None] says
    the text is not in this spelling, not that it is no integer (see
    [int_reading] for blanks, underscores, a fraction of zeros, longer
    texts). *)
Definition decimal_int (s : string) : option Z :=
  if (String.length s <=? 18)%nat
  then
    let '(neg, ds) := split_sign (chars s) in
    match ds with
    | [] => None
    | _ => z ← digits_value 0 ds; Some (if neg then - z else z)
    end
  else None.

Fixpoint split_dot (l : list ascii) : list ascii * option (list ascii) :=
  match l with
  | [] => ([], None)
  | c :: l' =>
      if Ascii.eqb c "."
      then ([], Some l')
      else let '(a, b) := split_dot l' in (c :: a, b)
  end.

(** Decimal text to float: optional sign, digits, optional fraction.
    Exponents and the special words [inf] and [nan] are not modelled. *)
Definition float_of_string (s : string) : option Q :=
  let '(neg, ds) := split_sign (strip (chars s)) in
  let '(ip, fp) := split_dot ds in
  let fp' := default [] fp in
  match (ip ++ fp')%list with
  | [] => None
  | _ =>
      i ← digits_value 0 ip;
      f ← digits_value 0 fp';
      let d := 10 ^ Z.of_nat (length fp') in
      let n := i * d + f in
      Some (Qred ((if neg then - n else n) # Z.to_pos d))
  end.

(** ** Builtins used by the source *)

(** [doc.get(key, dflt)]: only a dict has the method. *)
Definition py_get (doc : value) (key : string) (dflt : value) : result value :=
  match doc with
  | VDict d => Ok (default dflt (d !! key))
  | _ => Raise (PyErr AttributeError "object has no attribute 'get'")
  end.

(** Truth value of an object, as [or] and [if] test it. *)
Definition py_truthy (v : value) : bool :=
  match v with
  | VNone => false
  | VBool b => b
  | VInt z => negb (z =? 0)
  | VFloat q => negb (Qeq_bool q 0)
  | VStr s => negb (String.eqb s "")
  | VList l => match l with [] => false | _ => true end
  | VDict d => match map_to_list d with [] => false | _ => true end
  | VObjectId _ => true
  end.

(** [a or b] *)
Definition py_or (a b : value) : value := if py_truthy a then a else b.

(** [float(v)] *)
Definition py_float (v : value) : result Q :=
  match v with
  | VFloat q => Ok q
  | VInt z => Ok (inject_Z z)
  | VBool b => Ok (if b then 1%Q else 0%Q)
  | VStr s =>
      match float_of_string s with
      | Some q => Ok q
      | None => Raise (PyErr ValueError "could not convert string to float")
      end
  | VNone | VList _ | VDict _ | VObjectId _ =>
      Raise (PyErr TypeError "float() argument must be a string or a real number")
  end.

(** [list(v)]: iterating a str yields its characters, iterating a dict its
    keys (here in the order of the map, not in insertion order). *)
Definition py_list (v : value) : result (list value) :=
  match v with
  | VList l => Ok l
  | VStr s => Ok (map (fun c => VStr (String c "")) (chars s))
  | VDict d => Ok (map (fun kv => VStr kv.1) (map_to_list d))
  | VNone | VBool _ | VInt _ | VFloat _ | VObjectId _ =>
      Raise (PyErr TypeError "object is not iterable")
  end.

(** [str(v)].  It never raises.  The text Python prints for a float, a
    list or a dict is not computed here: [display] gives it. *)
Definition py_str (display : value -> string) (v : value) : string :=
  match v with
  | VNone => "None"
  | VBool b => if b then "True" else "False"
  | VInt z => pretty z
  | VStr s => s
  | VObjectId hex => hex
  | VFloat _ | VList _ | VDict _ => display v
  end.

(** ** The pydantic models

    Validation follows pydantic's default (lax) mode: a [str] field takes
    text only; a [float] field takes a float, an int, a bool or numeric
    text; [Optional] adds [None]; the bounds [ge] and [le] apply to the
    number; errors of all fields are collected, in field order. *)

Definition validated (A : Type) : Type := list error_detail + A.

Definition invalid {A} (l : list loc_item) (t : string) : validated A :=
  inl [mk_error l t].

Definition vap {A B} (f : validated (A -> B)) (x : validated A) : validated B :=
  match f, x with
  | inr f, inr x => inr (f x)
  | inr _, inl e => inl e
  | inl e, inr _ => inl e
  | inl e1, inl e2 => inl (e1 ++ e2)%list
  end.

Infix "<*>" := vap (at level 61, left associativity).

Definition str_validator (l : list loc_item) (v : value) : validated string :=
  match v with
  | VStr s => inr s
  | _ => invalid l "string_type"
  end.

Definition opt_str_validator (l : list loc_item) (v : value)
  : validated (option string) :=
  match v with
  | VNone => inr None
  | VStr s => inr (Some s)
  | _ => invalid l "string_type"
  end.

Definition float_validator (l : list loc_item) (v : value) : validated Q :=
  match v with
  | VFloat q => inr q
  | VInt z => inr (inject_Z z)
  | VBool b => inr (if b then 1%Q else 0%Q)
  | VStr s =>
      match float_of_string s with
      | Some q => inr q
      | None => invalid l "float_parsing"
      end
  | _ => invalid l "float_type"
  end.

(** [Field(..., ge=lo)] *)
Definition check_ge (lo : Q) (l : list loc_item) (q : Q) : validated Q :=
  if Qle_bool lo q then inr q else invalid l "greater_than_equal".

(** [Field(..., le=hi)] *)
Definition check_le (hi : Q) (l : list loc_item) (q : Q) : validated Q :=
  if Qle_bool q hi then inr q else invalid l "less_than_equal".

Definition vbind {A B} (r : validated A) (k : A -> validated B) : validated B :=
  match r with
  | inl e => inl e
  | inr a => k a
  end.

(** [price: float = Field(..., ge=0)] *)
Definition price_validator (l : list loc_item) (v : value) : validated Q :=
  vbind (float_validator l v) (check_ge 0 l).

(** [rating: Optional[float] = Field(default=4.5, ge=0, le=5)] *)
Definition rating_validator (l : list loc_item) (v : value)
  : validated (option Q) :=
  match v with
  | VNone => inr None
  | _ =>
      vbind (float_validator l v) (fun q =>
      vbind (check_ge 0 l q) (fun q =>
      vbind (check_le 5 l q) (fun q => inr (Some q))))
  end.

Fixpoint list_str_items (l : list loc_item) (i : nat) (vs : list value)
  : validated (list string) :=
  match vs with
  | [] => inr []
  | v :: vs' =>
      inr cons <*> str_validator (l ++ [LIndex i]) v
               <*> list_str_items l (S i) vs'
  end.

(** [tags: List[str]] *)
Definition tags_validator (l : list loc_item) (v : value)
  : validated (list string) :=
  match v with
  | VList vs => list_str_items l 0 vs
  | _ => invalid l "list_type"
  end.

(** A field without default. *)
Definition required {A} (data : document) (name : string)
    (f : list loc_item -> value -> validated A) : validated A :=
  match data !! name with
  | Some v => f [LField name] v
  | None => invalid [LField name] "missing"
  end.

(** A field with a default; the default itself is not validated. *)
Definition defaulted {A} (data : document) (name : string) (dflt : A)
    (f : list loc_item -> value -> validated A) : validated A :=
  match data !! name with
  | Some v => f [LField name] v
  | None => inr dflt
  end.

Record ProductIn : Type := mk_ProductIn {
  title : string;
  description : option string;
  price : Q;
  category : string;
  image : option string;
  rating : option Q;
  tags : list string
}.

(** [class Product(ProductIn)]: the inherited fields, then [id]. *)
Record Product : Type := mk_Product {
  fields :> ProductIn;
  id : string
}.

Definition validate_ProductIn (data : document) : validated ProductIn :=
  inr mk_ProductIn
    <*> required data "title" str_validator
    <*> defaulted data "description" None opt_str_validator
    <*> required data "price" price_validator
    <*> required data "category" str_validator
    <*> defaulted data "image" None opt_str_validator
    <*> defaulted data "rating" (Some 4.5%Q) rating_validator
    <*> defaulted data "tags" [] tags_validator.

Definition validate_Product (data : document) : validated Product :=
  inr mk_Product
    <*> validate_ProductIn data
    <*> required data "id" str_validator.

(** Calling the class with keyword arguments raises on invalid data. *)
Definition new_Product (kw : document) : result Product :=
  match validate_Product kw with
  | inr p => Ok p
  | inl errors => Raise (ValidationError errors)
  end.

(** ** Helpers of the source *)

Record Category : Type := mk_Category { slug : string; name : string }.

Definition CATEGORIES : list Category :=
  [ mk_Category "books" "Books";
    mk_Category "merch" "Merch";
    mk_Category "study" "Study Utilities";
    mk_Category "snacks" "Snacks" ].

(** [serialize_product(doc)].  The keyword arguments are evaluated from
    left to right, then the model is built.  [display] is the text [str]
    prints for a float, a list or a dict. *)
Definition serialize_product (display : value -> string) (doc : value)
  : result Product :=
  let? _id := py_get doc "_id" VNone in
  let id_ := py_str display _id in
  let? title_ := py_get doc "title" (VStr "") in
  let? description_ := py_get doc "description" VNone in
  let? price_raw := py_get doc "price" (VInt 0) in
  let? price_ := py_float price_raw in
  let? category_ := py_get doc "category" (VStr "") in
  let? image_ := py_get doc "image" VNone in
  let? rating_raw := py_get doc "rating" (VInt 0) in
  let? rating_ := py_float (py_or rating_raw (VInt 0)) in
  let? tags_raw := py_get doc "tags" (VList []) in
  let? tags_ := py_list (py_or tags_raw (VList [])) in
  new_Product (dict
    [ ("id", VStr id_);
      ("title", title_);
      ("description", description_);
      ("price", VFloat price_);
      ("category", category_);
      ("image", image_);
      ("rating", VFloat rating_);
      ("tags", VList tags_) ]).

(** ** Regular expressions of the store

    MongoDB evaluates [$regex] with PCRE.  The model covers the fragment
    made of literal characters, [.], an escaped non-alphanumeric character
    and the postfix operators [*], [+] and [?]; a pattern using anything
    else is reported as outside the fragment ([None]).  A search succeeds
    when the pattern matches at some position of the text. *)

Inductive atom : Type :=
  | AChar (c : ascii)
  | AAny.

Inductive quantifier : Type :=
  | QOne
  | QStar
  | QPlus
  | QOpt.

Definition regex : Type := list (atom * quantifier).

(** Characters with a special meaning in a pattern. *)
Definition is_meta (c : ascii) : bool :=
  existsb (Ascii.eqb c) (chars "\^$.[]|()?*+{}").

Definition take_quantifier (l : list ascii) : quantifier * list ascii :=
  match l with
  | c :: l' =>
      if Ascii.eqb c "*" then (QStar, l')
      else if Ascii.eqb c "+" then (QPlus, l')
      else if Ascii.eqb c "?" then (QOpt, l')
      else (QOne, l)
  | [] => (QOne, [])
  end.

(** [fuel] bounds the number of items; the length of the pattern is enough. *)
Fixpoint parse_items (fuel : nat) (l : list ascii) : option regex :=
  match fuel, l with
  | _, [] => Some []
  | O, _ :: _ => None
  | S fuel', c :: l' =>
      if Ascii.eqb c "\" then
        match l' with
        | e :: l'' =>
            if is_alnum e then None
            else let '(q, rest) := take_quantifier l'' in
                 r ← parse_items fuel' rest; Some ((AChar e, q) :: r)
        | [] => None
        end
      else if Ascii.eqb c "." then
        let '(q, rest) := take_quantifier l' in
        r ← parse_items fuel' rest; Some ((AAny, q) :: r)
      else if is_meta c then None
      else
        let '(q, rest) := take_quantifier l' in
        r ← parse_items fuel' rest; Some ((AChar c, q) :: r)
  end.

Definition parse_regex (pattern : string) : option regex :=
  parse_items (String.length pattern) (chars pattern).

Definition atom_accepts (ci : bool) (a : atom) (c : ascii) : bool :=
  match a with
  | AAny => negb (Ascii.eqb c "010")
  | AChar p => if ci then Ascii.eqb (lower p) (lower c) else Ascii.eqb p c
  end.

Section Matcher.
Variable ci : bool.

Fixpoint match_here (re : regex) (s : list ascii) {struct re} : bool :=
  match re with
  | [] => true
  | (a, q) :: re' =>
      let star :=
        fix star (s : list ascii) : bool :=
          match_here re' s ||
          match s with
          | c :: s' => atom_accepts ci a c && star s'
          | [] => false
          end in
      match q with
      | QOne =>
          match s with
          | c :: s' => atom_accepts ci a c && match_here re' s'
          | [] => false
          end
      | QOpt =>
          match_here re' s ||
          match s with
          | c :: s' => atom_accepts ci a c && match_here re' s'
          | [] => false
          end
      | QStar => star s
      | QPlus =>
          match s with
          | c :: s' => atom_accepts ci a c && star s'
          | [] => false
          end
      end
  end.

Fixpoint search (re : regex) (s : list ascii) : bool :=
  match_here re s ||
  match s with
  | _ :: s' => search re s'
  | [] => false
  end.
End Matcher.

(** [{"$regex": pattern, "$options": options}] applied to a text. *)
Definition regex_search (pattern options text : string) : option bool :=
  re ← parse_regex pattern;
  Some (search (existsb (Ascii.eqb "i") (chars options)) re (chars text)).

(** ** Query documents

    The two shapes of filter the source builds: [{field: value}] and
    [{field: {"$regex": p, "$options": o}}], joined by the implicit
    conjunction of a dict and by [{"$or": [...]}]. *)

Inductive condition : Type :=
  | Equals (v : value)
  | Regex (pattern options : string).

Inductive clause : Type :=
  | Field (name : string) (c : condition)
  | Or (alternatives : list (list clause)).

Definition filter : Type := list clause.

(** Equality of a query value with a stored scalar.  Numbers compare by
    value; containers are not compared (the source queries with a str or
    an ObjectId only). *)
Definition scalar_eqb (a b : value) : bool :=
  match a, b with
  | VNone, VNone => true
  | VBool x, VBool y => Bool.eqb x y
  | VInt x, VInt y => x =? y
  | VFloat x, VFloat y => Qeq_bool x y
  | VInt x, VFloat y | VFloat y, VInt x => Qeq_bool (inject_Z x) y
  | VStr x, VStr y => String.eqb x y
  | VObjectId x, VObjectId y => String.eqb x y
  | _, _ => false
  end.

(** A condition holds of a field when it holds of its value or, for an
    array, of one of its entries.  A regular expression only matches text. *)
Definition condition_match (c : condition) (fv : option value) : option bool :=
  match c with
  | Equals v =>
      Some match fv with
           | None => scalar_eqb v VNone
           | Some (VList l) => existsb (scalar_eqb v) l
           | Some x => scalar_eqb v x
           end
  | Regex pattern options =>
      let on_text (x : value) : option bool :=
        match x with
        | VStr s => regex_search pattern options s
        | _ => _ ← parse_regex pattern; Some false
        end in
      match fv with
      | None => on_text VNone
      | Some (VList l) =>
          foldr (fun x acc => b ← on_text x; b' ← acc; Some (b || b'))
                (on_text VNone) l
      | Some x => on_text x
      end
  end.

Fixpoint clause_match (c : clause) (doc : document) {struct c} : option bool :=
  match c with
  | Field name cond => condition_match cond (doc !! name)
  | Or alternatives =>
      (fix any (fs : list (list clause)) : option bool :=
         match fs with
         | [] => Some false
         | f :: fs' =>
             b ← (fix all (cs : list clause) : option bool :=
                    match cs with
                    | [] => Some true
                    | c :: cs' =>
                        b ← clause_match c doc; b' ← all cs'; Some (b && b')
                    end) f;
             b' ← any fs';
             Some (b || b')
         end) alternatives
  end.

(** Whether the store selects [doc] for the filter; [None] when the filter
    holds a pattern outside the modelled fragment. *)
Fixpoint filter_match (f : filter) (doc : document) : option bool :=
  match f with
  | [] => Some true
  | c :: f' => b ← clause_match c doc; b' ← filter_match f' doc; Some (b && b')
  end.

(** *** Patterns beyond the fragment

    The same evaluation of a filter, for an engine given by [compile]:
    the texts a pattern matches, or [None] when the engine refuses the
    pattern. *)

Section Engine.
Variable compile : string -> string -> option (string -> bool).

Definition condition_holds (c : condition) (fv : option value) : option bool :=
  match c with
  | Equals v => condition_match (Equals v) fv
  | Regex pattern options =>
      m ← compile pattern options;
      Some match fv with
           | Some (VStr s) => m s
           | Some (VList l) =>
               existsb (fun x => match x with VStr s => m s | _ => false end) l
           | _ => false
           end
  end.

Fixpoint clause_holds (c : clause) (doc : document) {struct c} : option bool :=
  match c with
  | Field name cond => condition_holds cond (doc !! name)
  | Or alternatives =>
      (fix any (fs : list (list clause)) : option bool :=
         match fs with
         | [] => Some false
         | f :: fs' =>
             b ← (fix all (cs : list clause) : option bool :=
                    match cs with
                    | [] => Some true
                    | c :: cs' =>
                        b ← clause_holds c doc; b' ← all cs'; Some (b && b')
                    end) f;
             b' ← any fs';
             Some (b || b')
         end) alternatives
  end.

Fixpoint filter_holds (f : filter) (doc : document) : option bool :=
  match f with
  | [] => Some true
  | c :: f' => b ← clause_holds c doc; b' ← filter_holds f' doc; Some (b && b')
  end.

(** Whether the engine compiles every pattern of the filter. *)
Definition condition_compiles (c : condition) : bool :=
  match c with
  | Equals _ => true
  | Regex pattern options =>
      if compile pattern options is Some _ then true else false
  end.

Fixpoint clause_compiles (c : clause) : bool :=
  match c with
  | Field _ cond => condition_compiles cond
  | Or alternatives => forallb (forallb clause_compiles) alternatives
  end.

Definition filter_compiles (f : filter) : bool := forallb clause_compiles f.

(** The documents the engine selects, in store order; [None] when it
    refuses a pattern of the filter. *)
Fixpoint selection (f : filter) (docs : list document) : option (list document) :=
  match docs with
  | [] => Some []
  | doc :: docs' =>
      b ← filter_holds f doc;
      r ← selection f docs';
      Some (if b : bool then doc :: r else r)
  end.
End Engine.

(** ** The document store

    [db] is the module-level handle imported from [database]: [None] when no
    connection is configured, else the database, a map from collection names
    to the documents of the collection in store order.  The rest of the
    world is what the program cannot control: the environment variables, the
    outcome of each call that reaches the server ([faults], indexed by the
    number of calls made so far), the 12-byte values the driver draws for
    new ObjectIds, and the libraries where the model does not compute
    them. *)

Inductive call : Type :=
  | CountDocuments (collection : string)
  | InsertOne (collection : string)
  | Find (collection : string) (limit : Z)
  | FindOne (collection : string)
  | ListCollectionNames.

(** What the libraries do where the model does not compute it:
    - [display v]: the text [str(v)] prints for a float, a list or a dict;
    - [int_beyond text]: the integer pydantic reads from a text that is not
      in the plain spelling of [decimal_int], [None] when it reads none;
    - [regex_beyond pattern options]: the texts the store's engine matches
      with a pattern outside the fragment of [parse_regex], [None] when it
      refuses the pattern. *)
Record library : Type := mk_library {
  display : value -> string;
  int_beyond : string -> option Z;
  regex_beyond : string -> string -> option (string -> bool)
}.

Record world : Type := mk_world {
  db : option (gmap string (list document));
  environ : gmap string string;
  calls : list call;
  faults : nat -> option string;
  oids : nat -> N;
  oid_next : nat;
  lib : library
}.

Definition set_db (d : gmap string (list document)) (w : world) : world :=
  mk_world (Some d) (environ w) (calls w) (faults w) (oids w) (oid_next w) (lib w).

Definition log_call (c : call) (w : world) : world :=
  mk_world (db w) (environ w) (calls w ++ [c])%list (faults w) (oids w)
           (oid_next w) (lib w).

Definition next_oid (w : world) : world :=
  mk_world (db w) (environ w) (calls w) (faults w) (oids w) (S (oid_next w))
           (lib w).

(** Stateful computations that may raise: the effects of a statement that
    raises stay. *)
Definition M (A : Type) : Type := world -> result A * world.

Definition ret {A} (a : A) : M A := fun w => (Ok a, w).
Definition raise {A} (e : exn) : M A := fun w => (Raise e, w).
Definition lift {A} (r : result A) : M A := fun w => (r, w).

Definition bind {A B} (m : M A) (k : A -> M B) : M B :=
  fun w =>
    match m w with
    | (inl e, w') => (inl e, w')
    | (inr a, w') => k a w'
    end.

(** [try: body / except Exception as e: handler(e)] *)
Definition try_except {A} (body : M A) (handler : exn -> M A) : M A :=
  fun w =>
    match body w with
    | (inl e, w') => handler e w'
    | (inr a, w') => (inr a, w')
    end.

Declare Scope py_scope.
Delimit Scope py_scope with py.
Notation "x <- m ;; k" := (bind m (fun x => k))
  (at level 100, m at next level, right associativity) : py_scope.
Notation "m ;; k" := (bind m (fun _ => k))
  (at level 100, right associativity) : py_scope.
Local Open Scope py_scope.

(** [for x in xs: body(x)] *)
Fixpoint for_each {A} (xs : list A) (body : A -> M unit) : M unit :=
  match xs with
  | [] => ret tt
  | x :: xs' => body x ;; for_each xs' body
  end.

(** [[f(x) for x in xs]] for an [f] without effects. *)
Fixpoint comprehension {A B} (f : A -> result B) (xs : list A) : result (list B) :=
  match xs with
  | [] => Ok []
  | x :: xs' =>
      let? y := f x in
      let? ys := comprehension f xs' in
      Ok (y :: ys)
  end.

(** *** ObjectId *)

Definition hex_digit (n : N) : ascii :=
  nth (N.to_nat n) (chars "0123456789abcdef") "0"%char.

Fixpoint hex_digits (k : nat) (n : N) (acc : list ascii) : list ascii :=
  match k with
  | O => acc
  | S k' => hex_digits k' (n / 16) (hex_digit (n mod 16) :: acc)
  end.

(** [str(oid)]: 24 hexadecimal digits. *)
Definition oid_hex (n : N) : string := string_of_list_ascii (hex_digits 24 n []).

Definition is_hex (c : ascii) : bool :=
  is_digit c || existsb (Ascii.eqb (lower c)) (chars "abcdef").

(** [ObjectId()] draws the next value. *)
Definition ObjectId_new : M value :=
  fun w => (Ok (VObjectId (oid_hex (oids w (oid_next w)))), next_oid w).

(** [ObjectId(text)] *)
Definition ObjectId_of_str (text : string) : result value :=
  if (String.length text =? 24)%nat && forallb is_hex (chars text)
  then Ok (VObjectId (string_of_list_ascii (map lower (chars text))))
  else Raise (PyErr InvalidId "not a valid ObjectId").

(** *** Driver calls *)

(** Every call that reaches the server is logged and may fail. *)
Definition driver_call (c : call) : M unit :=
  fun w =>
    match faults w (length (calls w)) with
    | Some msg => (Raise (PyErr PyMongoError msg), log_call c w)
    | None => (Ok tt, log_call c w)
    end.

(** Using the handle; subscripting [None] raises. *)
Definition the_db : M (gmap string (list document)) :=
  fun w =>
    match db w with
    | Some d => (Ok d, w)
    | None => (Raise (PyErr TypeError "'NoneType' object is not subscriptable"), w)
    end.

Definition collection (d : gmap string (list document)) (c : string)
  : list document := default [] (d !! c).

(** [db[c].count_documents({})] *)
Definition count_documents (c : string) : M Z :=
  d <- the_db ;;
  driver_call (CountDocuments c) ;;
  ret (Z.of_nat (length (collection d c))).

(** Whether a document of [docs] is selected by [{"_id": oid}]. *)
Definition id_taken (oid : value) (docs : list document) : bool :=
  existsb
    (fun old => bool_decide (filter_match [Field "_id" (Equals oid)] old = Some true))
    docs.

(** [db[c].insert_one(doc)]: the driver gives the document a new [_id]; the
    server refuses an [_id] already in the collection. *)
Definition insert_one (c : string) (doc : document) : M value :=
  d <- the_db ;;
  oid <- ObjectId_new ;;
  driver_call (InsertOne c) ;;
  if id_taken oid (collection d c)
  then raise (PyErr DuplicateKeyError "E11000 duplicate key error")
  else fun w =>
         (Ok oid,
          set_db (<[c := (collection d c ++ [<["_id" := oid]> doc])%list]> d) w).

(** The documents selected by a filter whose patterns are in the fragment,
    in store order. *)
Fixpoint select (f : filter) (docs : list document) : option (list document) :=
  match docs with
  | [] => Some []
  | doc :: docs' =>
      b ← filter_match f doc;
      r ← select f docs';
      Some (if b : bool then doc :: r else r)
  end.

(** The store's engine: the fragment, and the library beyond it. *)
Definition store_compile (w : world) (pattern options : string)
  : option (string -> bool) :=
  match parse_regex pattern with
  | Some re =>
      Some (fun text =>
              search (existsb (Ascii.eqb "i") (chars options)) re (chars text))
  | None => regex_beyond (lib w) pattern options
  end.

(** The server compiles the patterns of the filter before it reads the
    collection, and refuses the query when one does not compile, whatever
    the collection holds; else it evaluates the filter on each document. *)
Definition run_query (f : filter) (docs : list document) : M (list document) :=
  fun w =>
    if filter_compiles (store_compile w) f
    then match selection (store_compile w) f docs with
         | Some r => ret r w
         | None => raise (PyErr PyMongoError "Regular expression is invalid") w
         end
    else raise (PyErr PyMongoError "Regular expression is invalid") w.

(** [db[c].find_one(f)] *)
Definition find_one (c : string) (f : filter) : M (option document) :=
  d <- the_db ;;
  driver_call (FindOne c) ;;
  r <- run_query f (collection d c) ;;
  ret (head r).

(** [list(db[c].find(f).limit(n))] *)
Definition find (c : string) (f : filter) (n : Z) : M (list document) :=
  d <- the_db ;;
  driver_call (Find c n) ;;
  r <- run_query f (collection d c) ;;
  ret (take (Z.to_nat n) r).

(** [db.list_collection_names()] *)
Definition list_collection_names : M (list string) :=
  d <- the_db ;;
  driver_call ListCollectionNames ;;
  ret (map fst (map_to_list d)).

(** ** The [database] module

    [main.py] imports [db], [create_document] and [get_documents] from a
    module that is not part of the sources at hand. *)

(** Modelled from the spec: [toStoredDocument], the conversion
    [create_document] applies to a validated model before storing it, "identity mapping plus
    omission of the identifier field (store assigns it)". *)
Definition toStoredDocument (p : ProductIn) : document :=
  dict
    [ ("title", VStr (title p));
      ("description", from_option VStr VNone (description p));
      ("price", VFloat (price p));
      ("category", VStr (category p));
      ("image", from_option VStr VNone (image p));
      ("rating", from_option VFloat VNone (rating p));
      ("tags", VList (map VStr (tags p))) ].

(** Modelled from the spec: [create_document], the adapter's [insert]:
    "persists a new document, returns its generated unique identifier as a
    string. Fails with StorageUnavailable if no store connection exists; fails
    with StorageError on any lower-level driver fault." *)
Definition create_document (collection_name : string) (data : document) : M string :=
  fun w =>
    match db w with
    | None => raise (PyErr PlainException "Database not available") w
    | Some _ =>
        (oid <- insert_one collection_name data ;;
         ret (py_str (display (lib w)) oid)) w
    end.

(** Modelled from the spec: [get_documents], the adapter's [find]: "returns
    up to limit matching documents in store-native order (no specified sort).
    An empty or absent filter matches all documents. Returns empty sequence
    (never an error) when nothing matches." *)
Definition get_documents (collection_name : string) (filter_dict : filter)
    (limit : Z) : M (list document) :=
  fun w =>
    match db w with
    | None => raise (PyErr PlainException "Database not available") w
    | Some _ => find collection_name filter_dict limit w
    end.

(** ** Seeding *)

Definition samples : list document :=
  [ dict [ ("title", VStr "The Bookish Atelier Journal");
           ("description", VStr "A5 dotted journal for notes and sketches.");
           ("price", VFloat 14.99); ("category", VStr "study");
           ("image", VStr "/images/journal.jpg"); ("rating", VFloat 4.7);
           ("tags", VList [VStr "notebook"; VStr "stationery"]) ];
    dict [ ("title", VStr "Espresso Shot (Campus Café)");
           ("description", VStr "Quick energy boost while you browse.");
           ("price", VFloat 2.49); ("category", VStr "snacks");
           ("image", VStr "/images/espresso.jpg"); ("rating", VFloat 4.6);
           ("tags", VList [VStr "coffee"]) ];
    dict [ ("title", VStr "Bookish Atelier Tote");
           ("description", VStr "Canvas tote for your reads.");
           ("price", VFloat 12.0); ("category", VStr "merch");
           ("image", VStr "/images/tote.jpg"); ("rating", VFloat 4.4);
           ("tags", VList [VStr "bag"; VStr "gift"]) ];
    dict [ ("title", VStr "Annotated Classics: Pride & Prejudice");
           ("description", VStr "Curated edition with study notes.");
           ("price", VFloat 18.5); ("category", VStr "books");
           ("image", VStr "/images/pnp.jpg"); ("rating", VFloat 4.9);
           ("tags", VList [VStr "classic"; VStr "novel"]) ];
    dict [ ("title", VStr "Gel Ink Pens (Set of 5)");
           ("description", VStr "Smooth writing, 0.5mm.");
           ("price", VFloat 6.99); ("category", VStr "study");
           ("image", VStr "/images/pens.jpg"); ("rating", VFloat 4.3);
           ("tags", VList [VStr "pen"; VStr "stationery"]) ];
    dict [ ("title", VStr "Matcha Cookie");
           ("description", VStr "Crisp, lightly sweet.");
           ("price", VFloat 1.99); ("category", VStr "snacks");
           ("image", VStr "/images/cookie.jpg"); ("rating", VFloat 4.2);
           ("tags", VList [VStr "cookie"]) ];
    dict [ ("title", VStr "Hardcover: The Midnight Library");
           ("description", VStr "Best-selling novel.");
           ("price", VFloat 22.0); ("category", VStr "books");
           ("image", VStr "/images/midnight.jpg"); ("rating", VFloat 4.8);
           ("tags", VList [VStr "fiction"]) ];
    dict [ ("title", VStr "Enamel Pin – Book Lover");
           ("description", VStr "Cute collectible pin.");
           ("price", VFloat 4.5); ("category", VStr "merch");
           ("image", VStr "/images/pin.jpg"); ("rating", VFloat 4.1);
           ("tags", VList [VStr "pin"; VStr "gift"]) ] ].

(** The body of the [try] of [seed_products_if_empty]. *)
Definition seed_body : M unit :=
  fun w =>
    match db w with
    | None => ret tt w
    | Some _ =>
        (count <- count_documents "product" ;;
         if count >? 0 then ret tt
         else for_each samples (fun s => create_document "product" s ;; ret tt)) w
    end.

(** [seed_products_if_empty()]: [except Exception: pass]. *)
Definition seed_products_if_empty : M unit :=
  try_except seed_body (fun _ => ret tt).

(** ** Route handlers *)

(** The demo document of [list_products]. *)
Definition demo_document (oid : value) : document :=
  dict
    [ ("_id", oid); ("title", VStr "Sample Book");
      ("description", VStr "Demo product (DB not configured)");
      ("price", VFloat 9.99); ("category", VStr "books"); ("image", VNone);
      ("rating", VFloat 4.5); ("tags", VList []) ].

(** The truth value of an optional text parameter: [None] and the empty
    text are false. *)
Definition given (p : option string) : option string :=
  match p with
  | Some s => if String.eqb s "" then None else Some s
  | None => None
  end.

(** The [filter_dict] of [list_products]. *)
Definition build_filter (category_ q : option string) : filter :=
  (match given category_ with
   | Some c => [Field "category" (Equals (VStr c))]
   | None => []
   end ++
   match given q with
   | Some q =>
       [Or [ [Field "title" (Regex q "i")];
             [Field "description" (Regex q "i")];
             [Field "tags" (Regex q "i")] ]]
   | None => []
   end)%list.

(** [list_products(category, q, limit)] *)
Definition list_products (category_ q : option string) (limit : Z)
  : M (list Product) :=
  fun w =>
    match db w with
    | None =>
        (oid <- ObjectId_new ;;
         let demo := [demo_document oid] in
         lift (comprehension (serialize_product (display (lib w)))
                             (map VDict demo))) w
    | Some _ =>
        (let filter_dict := build_filter category_ q in
         docs <- get_documents "product" filter_dict limit ;;
         lift (comprehension (serialize_product (display (lib w)))
                             (map VDict docs))) w
    end.

(** [create_product(product)] *)
Definition create_product (product : ProductIn) : M Product :=
  fun w =>
    match db w with
    | None => raise (HTTPException 500 "Database not available") w
    | Some _ =>
        (new_id <- create_document "product" (toStoredDocument product) ;;
         oid <- lift (ObjectId_of_str new_id) ;;
         doc <- find_one "product" [Field "_id" (Equals oid)] ;;
         lift (serialize_product (display (lib w))
                                 (from_option VDict VNone doc))) w
    end.

(** [os.getenv(key)] *)
Definition getenv (key : string) : M (option string) :=
  fun w => (Ok (environ w !! key), w).

(** [text[:n]] *)
Definition slice_to (n : nat) (text : string) : string :=
  string_of_list_ascii (take n (chars text)).

(** The dict returned by [test_database]. *)
Record report : Type := mk_report {
  backend : string;
  database : string;
  database_url : option string;
  database_name : option string;
  connection_status : string;
  collections : list string
}.

Definition set_database (v : string) (r : report) : report :=
  mk_report (backend r) v (database_url r) (database_name r)
            (connection_status r) (collections r).

Definition set_database_url (v : option string) (r : report) : report :=
  mk_report (backend r) (database r) v (database_name r)
            (connection_status r) (collections r).

Definition set_database_name (v : option string) (r : report) : report :=
  mk_report (backend r) (database r) (database_url r) v
            (connection_status r) (collections r).

Definition set_connection_status (v : string) (r : report) : report :=
  mk_report (backend r) (database r) (database_url r) (database_name r)
            v (collections r).

Definition set_collections (v : list string) (r : report) : report :=
  mk_report (backend r) (database r) (database_url r) (database_name r)
            (connection_status r) v.

(** [test_database()].  The dict [response] is updated in place; the
    updates made before a statement raises stay.  Outside the inner [try]
    no statement of the outer one can raise, so its handler starts from the
    initial dict. *)
Definition test_database : M report :=
  let response :=
    mk_report "✅ Running" "❌ Not Available" None None "Not Connected" [] in
  try_except
    (fun w =>
       match db w with
       | Some _ =>
           (let response := set_database "✅ Available" response in
            url <- getenv "DATABASE_URL" ;;
            let response :=
              set_database_url
                (Some (if given url is Some _ then "✅ Set" else "❌ Not Set")) response in
            dbname <- getenv "DATABASE_NAME" ;;
            let response :=
              set_database_name
                (Some (default "❌ Not Set" (given dbname))) response in
            let response := set_connection_status "Connected" response in
            try_except
              (names <- list_collection_names ;;
               let response := set_collections (take 10 names) response in
               ret (set_database "✅ Connected & Working" response))
              (fun e =>
                 ret (set_database
                        ("⚠️ Connected but Error: " +:+ slice_to 50 (exn_str e))
                        response))) w
       | None => ret (set_database "❌ Not Available" response) w
       end)
    (fun e =>
       ret (set_database ("❌ Error: " +:+ slice_to 50 (exn_str e)) response)).

(** [read_root()] *)
Definition read_root : M string := ret "Welcome to Bookish Atelier API".

(** [get_categories()] *)
Definition get_categories : M (list Category) := ret CATEGORIES.

(** ** The framework around the handlers

    FastAPI binds and validates the parameters declared in the signature of
    a handler before calling it, and answers 422 with the list of errors
    when the binding fails.  A handler that returns gives a 200; an
    [HTTPException] gives its status code; any other exception a 500. *)

Inductive content : Type :=
  | JText (text : string)
  | JCategories (l : list Category)
  | JProduct (p : Product)
  | JProducts (l : list Product)
  | JReport (r : report)
  | JDetail (detail : string)
  | JValidation (detail : list error_detail).

Record response : Type := mk_response {
  status : Z;
  body : content
}.

Definition respond {A} (render : A -> content) (handler : M A)
  : world -> response * world :=
  fun w =>
    match handler w with
    | (inr a, w') => (mk_response 200 (render a), w')
    | (inl (HTTPException code detail), w') => (mk_response code (JDetail detail), w')
    | (inl _, w') => (mk_response 500 (JText "Internal Server Error"), w')
    end.

Definition unprocessable (errors : list error_detail) : world -> response * world :=
  fun w => (mk_response 422 (JValidation errors), w).

(** The place of a parameter: ["body"] or ["query"]. *)
Definition under (place : string) (e : error_detail) : error_detail :=
  mk_error (LField place :: loc e) (etype e).

(** The integer the framework reads from a query text: the plain
    spelling, and what the library reads beyond it. *)
Definition int_reading (w : world) (text : string) : option Z :=
  match decimal_int text with
  | Some z => Some z
  | None => int_beyond (lib w) text
  end.

(** [limit: int = Query(40, ge=1, le=100)], from the text of the query
    string, read with [read]. *)
Definition limit_validator (read : string -> option Z) (raw : option string)
  : validated Z :=
  match raw with
  | None => inr 40
  | Some text =>
      match read text with
      | None => invalid [LField "limit"] "int_parsing"
      | Some z =>
          if z <? 1 then invalid [LField "limit"] "greater_than_equal"
          else if 100 <? z then invalid [LField "limit"] "less_than_equal"
          else inr z
      end
  end.

(** [GET /] *)
Definition get_root : world -> response * world := respond JText read_root.

(** [GET /api/categories] *)
Definition get_api_categories : world -> response * world :=
  respond JCategories get_categories.

(** [GET /api/products?category=..&q=..&limit=..] *)
Definition get_api_products (category_ q limit : option string)
  : world -> response * world :=
  fun w =>
    match limit_validator (int_reading w) limit with
    | inr n => respond JProducts (list_products category_ q n) w
    | inl errors => unprocessable (map (under "query") errors) w
    end.

(** [POST /api/products] with a JSON body. *)
Definition post_api_products (payload : value) : world -> response * world :=
  match payload with
  | VDict data =>
      match validate_ProductIn data with
      | inr product => respond JProduct (create_product product)
      | inl errors => unprocessable (map (under "body") errors)
      end
  | _ => unprocessable [mk_error [LField "body"] "model_attributes_type"]
  end.

(** [GET /test] *)
Definition get_test : world -> response * world := respond JReport test_database.


(** * Vocabulary of the statements

    The predicates, the expected results and the concrete documents, payloads
    and worlds the properties below are stated with. *)

(** The errors of a validation, none on success. *)
Definition errors_of {A} (r : validated A) : list error_detail :=
  match r with
  | inl es => es
  | inr _ => []
  end.

(** What [serialize_product] reads from a field of the stored shape: the
    value of a field that is absent, null where the shape allows it, or of
    the type of the field; [None] for anything else. *)
Definition read_text (fv : option value) : option string :=
  match fv with
  | None => Some ""
  | Some (VStr s) => Some s
  | _ => None
  end.

(** [description] and [image]: absent, null or text. *)
Definition read_optional_text (fv : option value) : option (option string) :=
  match fv with
  | None | Some VNone => Some None
  | Some (VStr s) => Some (Some s)
  | _ => None
  end.

(** [price]: absent, or a number that is at least 0. *)
Definition read_price (fv : option value) : option Q :=
  match fv with
  | None => Some 0%Q
  | Some (VInt z) => if 0 <=? z then Some (inject_Z z) else None
  | Some (VFloat q) => if Qle_bool 0 q then Some q else None
  | _ => None
  end.

(** [rating]: absent, null, or a number of [0,5]; a zero is read as 0.0. *)
Definition read_rating (fv : option value) : option Q :=
  match fv with
  | None | Some VNone => Some 0%Q
  | Some (VInt z) => if (0 <=? z) && (z <=? 5) then Some (inject_Z z) else None
  | Some (VFloat q) =>
      if Qle_bool 0 q && Qle_bool q 5
      then Some (if Qeq_bool q 0 then 0%Q else q)
      else None
  | _ => None
  end.

(** The entries of a sequence of text. *)
Fixpoint texts (vs : list value) : option (list string) :=
  match vs with
  | [] => Some []
  | VStr s :: vs' => ts ← texts vs'; Some (s :: ts)
  | _ => None
  end.

(** [tags]: absent, null, or a sequence of text. *)
Definition read_tags (fv : option value) : option (list string) :=
  match fv with
  | None | Some VNone => Some []
  | Some (VList vs) => texts vs
  | _ => None
  end.

(** A stored document whose [tags] is a number. *)
Definition malformed_tags_document : document :=
  dict [ ("_id", VObjectId "65f0c0ffee65f0c0ffee0001"); ("title", VStr "Atlas");
         ("price", VFloat 3.5); ("category", VStr "books"); ("tags", VInt 5) ].

(** A stored document without price, with null rating and tags. *)
Definition sparse_document : document :=
  dict [ ("_id", VObjectId "65f0c0ffee65f0c0ffee0002"); ("title", VStr "Atlas");
         ("rating", VNone); ("tags", VNone) ].

(** The number a JSON number denotes. *)
Definition json_number (v : value) : option Q :=
  match v with
  | VInt z => Some (inject_Z z)
  | VFloat q => Some q
  | _ => None
  end.

(** A payload is out of range at [field] when its price is a number below
    0, or its rating a number outside [0,5]. *)
Definition out_of_range (data : document) (field : string) : Prop :=
  (field = "price" /\
   exists q, data !! "price" ≫= json_number = Some q /\ (q < 0)%Q) \/
  (field = "rating" /\
   exists q, data !! "rating" ≫= json_number = Some q /\ (q < 0 \/ 5 < q)%Q).

(** Libraries for the examples that do not reach them (the identifiers
    are ObjectIds, the limits are in the plain spelling, the patterns are
    in the fragment). *)
Definition example_library : library :=
  mk_library (fun _ => "") (fun _ => None) (fun _ _ => None).

(** A process started without a store. *)
Definition unavailable_world : world :=
  mk_world None ∅ [] (fun _ => None) N.of_nat 0 example_library.

(** A process with an empty database that answers every call. *)
Definition empty_world : world :=
  mk_world (Some ∅) ∅ [] (fun _ => None) N.of_nat 0 example_library.

(** A payload with a price below 0. *)
Definition negative_price_payload : document :=
  dict [ ("title", VStr "Atlas"); ("price", VFloat (-1)); ("category", VStr "books") ].

(** The rating read back from a stored rating. *)
Definition read_back_rating (r : option Q) : Q :=
  match r with
  | None => 0%Q
  | Some q => if Qeq_bool q 0 then 0%Q else q
  end.

(** The product read back from the stored form of [p] under the
    identifier of text [hex]. *)
Definition read_back (p : ProductIn) (hex : string) : Product :=
  mk_Product
    (mk_ProductIn (title p) (description p) (price p) (category p) (image p)
                  (Some (read_back_rating (rating p))) (tags p))
    hex.

(** The document [create_document] stores for [p], with its identifier. *)
Definition stored (p : ProductIn) (oid : value) : document :=
  <["_id" := oid]> (toStoredDocument p).

(** The text of the next ObjectId. *)
Definition fresh_hex (w : world) : string := oid_hex (oids w (oid_next w)).

(** The world after a successful [insert_one]. *)
Definition after_insert (c : string) (doc : document)
    (d : gmap string (list document)) (w : world) : world :=
  set_db
    (<[c := (collection d c ++ [<["_id" := VObjectId (fresh_hex w)]> doc])%list]> d)
    (log_call (InsertOne c) (next_oid w)).

(** A payload with the required fields only. *)
Definition plain_payload : document :=
  dict [ ("title", VStr "Atlas"); ("price", VInt 3); ("category", VStr "books") ].

(** The same payload with an explicit null rating. *)
Definition null_rating_payload : document :=
  dict [ ("title", VStr "Atlas"); ("price", VInt 3); ("category", VStr "books");
         ("rating", VNone) ].

(** Whether FastAPI binds the payload to a [ProductIn]. *)
Definition binds (payload : value) : bool :=
  match payload with
  | VDict data => if validate_ProductIn data is inr _ then true else false
  | _ => false
  end.

(** The product served when no store is configured. *)
Definition demo_product (hex : string) : Product :=
  mk_Product
    (mk_ProductIn "Sample Book" (Some "Demo product (DB not configured)")
                  9.99 "books" None (Some 4.5%Q) [])
    hex.


(** A process whose store refuses every call. *)
Definition failing_world : world :=
  mk_world (Some ∅) ∅ [] (fun _ => Some "connection refused") N.of_nat 0
           example_library.

(** A query text without a character that is special in a pattern. *)
Definition plain (q : string) : Prop :=
  forallb (fun c => negb (is_meta c)) (chars q) = true.

(** [q] occurs in [t], letters compared without case. *)
Definition ci_substring (q t : string) : Prop :=
  exists pre post,
    map lower (chars t) = (pre ++ map lower (chars q) ++ post)%list.

(** [q] occurs in the field: in its text, or in one entry of its array. *)
Definition field_contains (q : string) (fv : option value) : Prop :=
  (exists s, fv = Some (VStr s) /\ ci_substring q s) \/
  (exists l s, fv = Some (VList l) /\ In (VStr s) l /\ ci_substring q s).

(** The pattern that reads a text character by character. *)
Definition literal (l : list ascii) : regex := map (fun c => (AChar c, QOne)) l.

(** A stored document whose title holds a [+]. *)
Definition sum_document : document :=
  dict [ ("title", VStr "2+2=4"); ("description", VStr "Arithmetic primer");
         ("price", VFloat 5.0); ("category", VStr "books"); ("tags", VList []) ].

(** A stored document that mentions coffee in its tags only. *)
Definition espresso_document : document :=
  dict [ ("title", VStr "Espresso Shot"); ("description", VStr "Quick energy boost.");
         ("price", VFloat 2.49); ("category", VStr "snacks");
         ("tags", VList [VStr "Coffee"]) ].

(** The documents of the collection [product]; none without a store. *)
Definition products (w : world) : list document :=
  match db w with
  | Some d => collection d "product"
  | None => []
  end.

(** The texts of the next [n] ObjectIds. *)
Definition hexes (w : world) (n : nat) : list string :=
  map (fun i => oid_hex (oids w (oid_next w + i))) (seq 0 n).

(** A sample as stored, with its identifier. *)
Definition with_id (h : string) (s : document) : document :=
  <["_id" := VObjectId h]> s.

(** The statement [create_document("product", s)] of the loop. *)
Definition seed_one (s : document) : M unit :=
  create_document "product" s ;; ret tt.

(** A process whose store answers the first call and fails afterwards. *)
Definition flaky_world : world :=
  mk_world (Some ∅) ∅ []
    (fun i => match i with O => None | _ => Some "timed out" end) N.of_nat 0
    example_library.

(** Two well-formed stored documents and one whose rating is out of range. *)
Definition atlas_document : document :=
  dict [ ("_id", VObjectId "65f0c0ffee65f0c0ffee0005"); ("title", VStr "Atlas");
         ("price", VFloat 12.5); ("category", VStr "books");
         ("rating", VFloat 4.0); ("tags", VList [VStr "maps"]) ].

Definition tea_document : document :=
  dict [ ("_id", VObjectId "65f0c0ffee65f0c0ffee0006"); ("title", VStr "Green tea");
         ("price", VFloat 3.0); ("category", VStr "snacks");
         ("rating", VFloat 4.5); ("tags", VList [VStr "tea"]) ].

Definition overrated_document : document :=
  dict [ ("_id", VObjectId "65f0c0ffee65f0c0ffee0007"); ("title", VStr "Mug");
         ("price", VFloat 8.0); ("category", VStr "merch");
         ("rating", VFloat 7.0); ("tags", VList []) ].

(** A store that answers, with the two well-formed documents. *)
Definition stocked_world : world :=
  mk_world (Some (<["product" := [atlas_document; tea_document]]> ∅)) ∅ []
           (fun _ => None) N.of_nat 0 example_library.

(** The same store after the out-of-range document was added from outside. *)
Definition poisoned_world : world :=
  mk_world (Some (<["product" := [atlas_document; overrated_document]]> ∅)) ∅ []
           (fun _ => None) N.of_nat 0 example_library.

(** Whether a text begins with the characters [pre]. *)
Fixpoint begins_with (pre text : list ascii) : bool :=
  match pre, text with
  | [], _ => true
  | c :: pre', c' :: text' => Ascii.eqb c c' && begins_with pre' text'
  | _ :: _, [] => false
  end.

(** Libraries that go beyond the model on two inputs, the way pydantic and
    the store do: the text "5.0" is read as the integer 5, and the
    anchored pattern "^atlas" is matched by the texts that begin with
    these letters, compared without case. *)
Definition wider_library : library :=
  mk_library
    (fun _ => "")
    (fun text => if String.eqb text "5.0" then Some 5 else None)
    (fun pattern options =>
       if String.eqb pattern "^atlas"
       then Some (fun text => begins_with (chars "atlas") (map lower (chars text)))
       else None).

(** The stocked store, served with these libraries. *)
Definition wider_world : world :=
  mk_world (Some (<["product" := [atlas_document; tea_document]]> ∅)) ∅ []
           (fun _ => None) N.of_nat 0 wider_library.

(** The product [serialize_product] returns for [atlas_document]. *)
Definition atlas_product : Product :=
  mk_Product (mk_ProductIn "Atlas" None 12.5 "books" None (Some 4.0%Q) ["maps"])
             "65f0c0ffee65f0c0ffee0005".

(** Whether an exception is an [HTTPException]. *)
Definition is_http (e : exn) : bool :=
  match e with
  | HTTPException _ _ => true
  | _ => false
  end.

(** A store that answers the count and two insertions, then fails. *)
Definition interrupted_world : world :=
  mk_world (Some ∅) ∅ []
    (fun i => if (i <? 3)%nat then None else Some "timed out") N.of_nat 0
    example_library.

(** What [test_database] reports about the environment of a configured
    store. *)
Definition configured_report (w : world) : report :=
  mk_report "✅ Running" "✅ Available"
    (Some (if given (environ w !! "DATABASE_URL") is Some _
           then "✅ Set" else "❌ Not Set"))
    (Some (default "❌ Not Set" (given (environ w !! "DATABASE_NAME"))))
    "Connected" [].

(** * Properties *)

(** ** Generic facts *)

Lemma vap_errors {A B} (f : validated (A -> B)) (x : validated A) :
  errors_of (f <*> x) = (errors_of f ++ errors_of x)%list.
Proof. destruct f, x; simpl; auto using app_nil_r. Qed.

Lemma vap_inr {A B} (f : validated (A -> B)) (x : validated A) (y : B) :
  f <*> x = inr y -> exists f' x', f = inr f' /\ x = inr x' /\ y = f' x'.
Proof. destruct f, x; simpl; intros H; inversion H; eauto. Qed.

Lemma errors_of_inl {A} (r : validated A) (e : error_detail) :
  In e (errors_of r) -> exists es, r = inl es /\ In e es.
Proof. destruct r; simpl; [eauto | tauto]. Qed.

Lemma list_str_items_text (l : list loc_item) (ts : list string) :
  forall i, list_str_items l i (map VStr ts) = inr ts.
Proof. induction ts as [|t ts IH]; intros i; simpl; [|rewrite IH]; reflexivity. Qed.

(** ** Reading a stored document *)

(** The model built from eight keyword arguments. *)
Lemma validate_Product_kwargs (a b c d e f g h : value) :
  validate_Product
    (dict [ ("id", a); ("title", b); ("description", c); ("price", d);
            ("category", e); ("image", f); ("rating", g); ("tags", h) ])
  = inr mk_Product
      <*> (inr mk_ProductIn
             <*> str_validator [LField "title"] b
             <*> opt_str_validator [LField "description"] c
             <*> price_validator [LField "price"] d
             <*> str_validator [LField "category"] e
             <*> opt_str_validator [LField "image"] f
             <*> rating_validator [LField "rating"] g
             <*> tags_validator [LField "tags"] h)
      <*> str_validator [LField "id"] a.
Proof. reflexivity. Qed.

Lemma serialize_product_dict (display : value -> string) (d : document) :
  serialize_product display (VDict d) =
    let? price_ := py_float (default (VInt 0) (d !! "price")) in
    let? rating_ := py_float (py_or (default (VInt 0) (d !! "rating")) (VInt 0)) in
    let? tags_ := py_list (py_or (default (VList []) (d !! "tags")) (VList [])) in
    new_Product (dict
      [ ("id", VStr (py_str display (default VNone (d !! "_id"))));
        ("title", default (VStr "") (d !! "title"));
        ("description", default VNone (d !! "description"));
        ("price", VFloat price_);
        ("category", default (VStr "") (d !! "category"));
        ("image", default VNone (d !! "image"));
        ("rating", VFloat rating_);
        ("tags", VList tags_) ]).
Proof. reflexivity. Qed.

Lemma inject_Z_le_bool (a b : Z) : Qle_bool (inject_Z a) (inject_Z b) = (a <=? b).
Proof. unfold Qle_bool, inject_Z; simpl. now rewrite !Z.mul_1_r. Qed.

Lemma read_text_ok (l : list loc_item) (fv : option value) (t : string) :
  read_text fv = Some t -> str_validator l (default (VStr "") fv) = inr t.
Proof. destruct fv as [[]|]; simpl; congruence. Qed.

Lemma read_optional_text_ok (l : list loc_item) (fv : option value) (t : option string) :
  read_optional_text fv = Some t -> opt_str_validator l (default VNone fv) = inr t.
Proof. destruct fv as [[]|]; simpl; congruence. Qed.

Lemma read_price_ok (l : list loc_item) (fv : option value) (p : Q) :
  read_price fv = Some p ->
  py_float (default (VInt 0) fv) = Ok p /\ price_validator l (VFloat p) = inr p.
Proof.
  unfold price_validator, check_ge.
  destruct fv as [[]|]; simpl; try discriminate.
  - destruct (0 <=? z) eqn:E; [|discriminate]. intros [= <-].
    change 0%Q with (inject_Z 0). now rewrite inject_Z_le_bool, E.
  - destruct (Qle_bool 0 q) eqn:E; [|discriminate]. intros [= <-]. now rewrite E.
  - intros [= <-]. split; reflexivity.
Qed.

Lemma read_rating_ok (l : list loc_item) (fv : option value) (r : Q) :
  read_rating fv = Some r ->
  py_float (py_or (default (VInt 0) fv) (VInt 0)) = Ok r /\
  rating_validator l (VFloat r) = inr (Some r).
Proof.
  unfold rating_validator, check_ge, check_le, py_or.
  destruct fv as [[]|]; simpl; try discriminate;
    try (intros [= <-]; split; reflexivity).
  - destruct (0 <=? z) eqn:E1, (z <=? 5) eqn:E2; simpl; try discriminate.
    intros [= <-]. split; [now destruct (Z.eqb_spec z 0) as [->|]|].
    change 0%Q with (inject_Z 0). change 5%Q with (inject_Z 5).
    rewrite inject_Z_le_bool, E1. cbn [vbind].
    now rewrite inject_Z_le_bool, E2.
  - destruct (Qle_bool 0 q) eqn:E1, (Qle_bool q 5) eqn:E2; simpl; try discriminate.
    intros [= <-]. destruct (Qeq_bool q 0); simpl; [split; reflexivity|].
    rewrite E1. cbn [vbind]. now rewrite E2.
Qed.

Lemma texts_map (vs : list value) (ts : list string) :
  texts vs = Some ts -> vs = map VStr ts.
Proof.
  revert ts; induction vs as [|v vs IH]; intros ts; simpl.
  - now intros [= <-].
  - destruct v; try discriminate. destruct (texts vs); simpl; [|discriminate].
    intros [= <-]. simpl. now rewrite (IH l).
Qed.

Lemma read_tags_ok (l : list loc_item) (fv : option value) (ts : list string) :
  read_tags fv = Some ts ->
  exists vs, py_list (py_or (default (VList []) fv) (VList [])) = Ok vs /\
             tags_validator l (VList vs) = inr ts.
Proof.
  unfold py_or. destruct fv as [[]|]; simpl; try discriminate;
    try (intros [= <-]; exists []; split; reflexivity).
  intros H. apply texts_map in H. subst l0. exists (map VStr ts). split.
  - now destruct ts.
  - apply list_str_items_text.
Qed.

(** *** C1 *)

(** C1, as stated, fails: [serialize_product] raises on a stored document
    with a malformed field, here [tags] holding a number. *)
Lemma serialize_product_raises_on_malformed_tags :
  serialize_product (display example_library) (VDict malformed_tags_document)
  = Raise (PyErr TypeError "object is not iterable").
Proof. vm_compute. reflexivity. Qed.

(** C1, amended: on a document whose fields are absent or of the stored
    shape, [serialize_product] returns a Product; an absent price is read
    as 0.0, an absent or null rating as 0.0, absent or null tags as the
    empty sequence, an absent title or category as the empty text, an
    absent description or image as null. *)
Theorem serialize_product_defaults (display : value -> string) (d : document)
    (t c : string) (de im : option string) (p r : Q) (tg : list string) :
  read_text (d !! "title") = Some t ->
  read_optional_text (d !! "description") = Some de ->
  read_price (d !! "price") = Some p ->
  read_text (d !! "category") = Some c ->
  read_optional_text (d !! "image") = Some im ->
  read_rating (d !! "rating") = Some r ->
  read_tags (d !! "tags") = Some tg ->
  serialize_product display (VDict d)
  = Ok (mk_Product (mk_ProductIn t de p c im (Some r) tg)
                   (py_str display (default VNone (d !! "_id")))).
Proof.
  intros Ht Hde Hp Hc Him Hr Htg.
  rewrite serialize_product_dict.
  destruct (read_price_ok [LField "price"] _ _ Hp) as [-> Hp'].
  destruct (read_rating_ok [LField "rating"] _ _ Hr) as [-> Hr'].
  destruct (read_tags_ok [LField "tags"] _ _ Htg) as (vs & -> & Htg').
  cbn [rbind Ok]. unfold new_Product.
  rewrite validate_Product_kwargs.
  rewrite (read_text_ok _ _ _ Ht), (read_optional_text_ok _ _ _ Hde), Hp',
    (read_text_ok _ _ _ Hc), (read_optional_text_ok _ _ _ Him), Hr', Htg'.
  reflexivity.
Qed.

Lemma serialize_product_defaults_witness :
  serialize_product (display example_library) (VDict sparse_document)
  = Ok (mk_Product (mk_ProductIn "Atlas" None 0 "" None (Some 0%Q) [])
                   "65f0c0ffee65f0c0ffee0002").
Proof.
  apply (serialize_product_defaults (display example_library) sparse_document);
    vm_compute; reflexivity.
Defined.

(** A null price is not defaulted the way a null rating is: [float(None)]
    raises. *)
Example serialize_product_null_price :
  serialize_product (display example_library)
    (VDict (dict [ ("_id", VObjectId "65f0c0ffee65f0c0ffee0003");
                   ("title", VStr "Atlas"); ("price", VNone) ]))
  = Raise (PyErr TypeError "float() argument must be a string or a real number").
Proof. vm_compute. reflexivity. Qed.

(** ** Validation of the request body *)

Lemma Qle_bool_false_lt (a b : Q) : (b < a)%Q -> Qle_bool a b = false.
Proof.
  intros H. destruct (Qle_bool a b) eqn:E; [|reflexivity].
  apply Qle_bool_iff in E. exfalso. apply (Qlt_not_le _ _ H E).
Qed.

Lemma price_validator_negative (l : list loc_item) (v : value) (q : Q) :
  json_number v = Some q -> (q < 0)%Q ->
  price_validator l v = invalid l "greater_than_equal".
Proof.
  intros Hv Hq. unfold price_validator, check_ge.
  destruct v; simpl in Hv; try discriminate; injection Hv as <-; simpl;
    now rewrite (Qle_bool_false_lt _ _ Hq).
Qed.

Lemma rating_validator_out_of_range (l : list loc_item) (v : value) (q : Q) :
  json_number v = Some q -> (q < 0 \/ 5 < q)%Q ->
  exists t, rating_validator l v = invalid l t.
Proof.
  intros Hv Hq. unfold rating_validator, check_ge, check_le.
  destruct v; simpl in Hv; try discriminate; injection Hv as <-; simpl.
  all: destruct Hq as [Hq|Hq].
  all: try (rewrite (Qle_bool_false_lt _ _ Hq); simpl; eauto; fail).
  all: match goal with |- context [Qle_bool 0 ?x] => destruct (Qle_bool 0 x) end;
    simpl; [rewrite (Qle_bool_false_lt _ _ Hq)|]; eauto.
Qed.

Lemma validate_ProductIn_errors (data : document) :
  errors_of (validate_ProductIn data) =
    (errors_of (required data "title" str_validator) ++
     errors_of (defaulted data "description" None opt_str_validator) ++
     errors_of (required data "price" price_validator) ++
     errors_of (required data "category" str_validator) ++
     errors_of (defaulted data "image" None opt_str_validator) ++
     errors_of (defaulted data "rating" (Some 4.5%Q) rating_validator) ++
     errors_of (defaulted data "tags" [] tags_validator))%list.
Proof.
  unfold validate_ProductIn. rewrite !vap_errors. simpl.
  now rewrite <- !app_assoc.
Qed.

Lemma out_of_range_error (data : document) (field : string) :
  out_of_range data field ->
  exists t, In (mk_error [LField field] t) (errors_of (validate_ProductIn data)).
Proof.
  intros H. rewrite validate_ProductIn_errors.
  destruct H as [[-> (q & Hv & Hq)]|[-> (q & Hv & Hq)]].
  - exists "greater_than_equal". unfold required at 2.
    destruct (data !! "price") as [v|]; [|discriminate]. simpl in Hv.
    rewrite (price_validator_negative _ _ _ Hv Hq).
    rewrite !in_app_iff. right; right; left. now left.
  - unfold defaulted at 3.
    destruct (data !! "rating") as [v|]; [|discriminate]. simpl in Hv.
    destruct (rating_validator_out_of_range [LField "rating"] _ _ Hv Hq) as [t ->].
    exists t. rewrite !in_app_iff. do 5 right. left. now left.
Qed.

(** *** C2 *)

(** C2: a payload whose price is below 0, or whose rating is outside
    [0,5], is answered 422 with an error located at that field of the
    body, and the world (the store and the log of calls made on it) is
    left as it was. *)
Theorem post_api_products_rejects_out_of_range
    (w : world) (data : document) (field : string) :
  out_of_range data field ->
  exists errors t,
    post_api_products (VDict data) w = (mk_response 422 (JValidation errors), w) /\
    In (mk_error [LField "body"; LField field] t) errors.
Proof.
  intros H. destruct (out_of_range_error _ _ H) as [t Ht].
  destruct (errors_of_inl _ _ Ht) as (es & Hes & Hin).
  exists (map (under "body") es), t. unfold post_api_products. rewrite Hes. split.
  - reflexivity.
  - apply (in_map (under "body")) in Hin. exact Hin.
Qed.

Lemma post_api_products_rejects_out_of_range_witness :
  exists errors t,
    post_api_products (VDict negative_price_payload) empty_world
    = (mk_response 422 (JValidation errors), empty_world) /\
    In (mk_error [LField "body"; LField "price"] t) errors.
Proof.
  apply (post_api_products_rejects_out_of_range empty_world negative_price_payload).
  left. split; [reflexivity|]. exists (-1)%Q. split; [vm_compute; reflexivity|reflexivity].
Defined.

(** ** ObjectIds *)

Lemma string_length_of_list (l : list ascii) :
  String.length (string_of_list_ascii l) = length l.
Proof. induction l; simpl; congruence. Qed.

Lemma hex_digit_canonical (n : N) :
  is_hex (hex_digit n) = true /\ lower (hex_digit n) = hex_digit n.
Proof.
  unfold hex_digit.
  assert (H : Forall (fun c => is_hex c = true /\ lower c = c)
                     ("0"%char :: chars "0123456789abcdef")).
  { repeat constructor. }
  rewrite List.Forall_forall in H. apply H.
  destruct (nth_in_or_default (N.to_nat n) (chars "0123456789abcdef") "0"%char)
    as [Hin| ->]; [right; exact Hin|left; reflexivity].
Qed.

Lemma hex_digits_canonical (k : nat) :
  forall n acc,
    Forall (fun c => is_hex c = true /\ lower c = c) acc ->
    Forall (fun c => is_hex c = true /\ lower c = c) (hex_digits k n acc) /\
    length (hex_digits k n acc) = (k + length acc)%nat.
Proof.
  induction k as [|k IH]; intros n acc Hacc; simpl; [auto|].
  destruct (IH (n / 16)%N (hex_digit (n mod 16) :: acc)) as [H1 H2].
  - constructor; [apply hex_digit_canonical|exact Hacc].
  - split; [exact H1|]. rewrite H2. simpl. lia.
Qed.

(** [ObjectId(str(oid)) == oid] *)
Lemma ObjectId_of_str_hex (n : N) :
  ObjectId_of_str (oid_hex n) = Ok (VObjectId (oid_hex n)).
Proof.
  unfold ObjectId_of_str, oid_hex, chars.
  destruct (hex_digits_canonical 24 n [] (List.Forall_nil _)) as [H1 H2].
  rewrite string_length_of_list, list_ascii_of_string_of_list_ascii, H2.
  simpl Nat.eqb.
  assert (Hh : forallb is_hex (hex_digits 24 n []) = true).
  { apply forallb_forall. rewrite List.Forall_forall in H1. intros c Hc. now apply H1. }
  assert (Hl : map lower (hex_digits 24 n []) = hex_digits 24 n []).
  { clear H2 Hh. induction H1 as [|c l [_ Hc] _ IH]; simpl; [reflexivity|].
    now rewrite Hc, IH. }
  now rewrite Hh, Hl.
Qed.

(** ** Creating a product and reading it back *)

Lemma serialize_stored (display : value -> string) (p : ProductIn) (oid : value) :
  serialize_product display (VDict (stored p oid)) =
    new_Product (dict
      [ ("id", VStr (py_str display oid));
        ("title", VStr (title p));
        ("description", from_option VStr VNone (description p));
        ("price", VFloat (price p));
        ("category", VStr (category p));
        ("image", from_option VStr VNone (image p));
        ("rating", VFloat (read_back_rating (rating p)));
        ("tags", VList (map VStr (tags p))) ]).
Proof.
  rewrite serialize_product_dict.
  destruct p as [t de pr c im r tg]. unfold stored, toStoredDocument.
  cbn [title description price category image rating tags].
  change (default (VInt 0) _) with (VFloat pr) at 1.
  change (default (VInt 0) _) with (from_option VFloat VNone r).
  change (default (VList []) _) with (VList (map VStr tg)).
  cbn [py_float rbind Ok].
  assert (Hr : py_float (py_or (from_option VFloat VNone r) (VInt 0))
               = Ok (read_back_rating r)).
  { destruct r as [q|]; [|reflexivity]. unfold py_or; simpl.
    now destruct (Qeq_bool q 0). }
  assert (Htg : py_list (py_or (VList (map VStr tg)) (VList []))
                = Ok (map VStr tg)) by now destruct tg.
  rewrite Hr, Htg. reflexivity.
Qed.

(** Reading the stored form back gives [read_back], or the model refuses
    the stored values. *)
Lemma serialize_stored_cases (display : value -> string) (p : ProductIn)
    (hex : string) :
  serialize_product display (VDict (stored p (VObjectId hex)))
  = Ok (read_back p hex) \/
  exists es,
    serialize_product display (VDict (stored p (VObjectId hex)))
    = Raise (ValidationError es).
Proof.
  rewrite serialize_stored. unfold new_Product. rewrite validate_Product_kwargs.
  unfold price_validator, rating_validator, check_ge, check_le, tags_validator.
  rewrite list_str_items_text. cbn [float_validator vbind str_validator].
  assert (Hd : forall l o, opt_str_validator l (from_option VStr VNone o) = inr o)
    by (intros l []; reflexivity).
  rewrite !Hd.
  destruct (Qle_bool 0 (price p)); cbn [vbind];
    destruct (Qle_bool 0 (read_back_rating (rating p))); cbn [vbind];
    destruct (Qle_bool (read_back_rating (rating p)) 5); cbn [vbind];
    (left; reflexivity) || (right; eexists; reflexivity).
Qed.

Lemma serialize_stored_ok (display : value -> string) (p : ProductIn)
    (hex : string) :
  Qle_bool 0 (price p) = true ->
  Qle_bool 0 (read_back_rating (rating p)) = true ->
  Qle_bool (read_back_rating (rating p)) 5 = true ->
  serialize_product display (VDict (stored p (VObjectId hex)))
  = Ok (read_back p hex).
Proof.
  intros H1 H2 H3.
  rewrite serialize_stored. unfold new_Product. rewrite validate_Product_kwargs.
  unfold price_validator, rating_validator, check_ge, check_le, tags_validator.
  rewrite list_str_items_text. cbn [float_validator vbind str_validator].
  rewrite H1. cbn [vbind]. rewrite H2. cbn [vbind]. rewrite H3. cbn [vbind].
  assert (Hd : forall l o, opt_str_validator l (from_option VStr VNone o) = inr o)
    by (intros l []; reflexivity).
  rewrite !Hd. reflexivity.
Qed.

(** *** Runs of the driver calls *)

Lemma insert_one_run (c : string) (doc : document) (w : world)
    (d : gmap string (list document)) :
  db w = Some d ->
  insert_one c doc w =
    match faults w (length (calls w)) with
    | Some msg =>
        (Raise (PyErr PyMongoError msg), log_call (InsertOne c) (next_oid w))
    | None =>
        if id_taken (VObjectId (fresh_hex w)) (collection d c)
        then (Raise (PyErr DuplicateKeyError "E11000 duplicate key error"),
              log_call (InsertOne c) (next_oid w))
        else (Ok (VObjectId (fresh_hex w)), after_insert c doc d w)
    end.
Proof.
  intros Hdb. unfold insert_one, bind, the_db, ObjectId_new, driver_call.
  rewrite Hdb. unfold fresh_hex, after_insert.
  cbn -[oid_hex id_taken collection].
  destruct (faults w (length (calls w))); [reflexivity|].
  destruct (id_taken (VObjectId (oid_hex (oids w (oid_next w)))) (collection d c));
    reflexivity.
Qed.

Lemma collection_insert (d : gmap string (list document)) (c : string)
    (docs : list document) :
  collection (<[c := docs]> d) c = docs.
Proof. unfold collection. now rewrite lookup_insert_eq. Qed.

Lemma filter_match_id (oid : value) (doc : document) :
  exists b, filter_match [Field "_id" (Equals oid)] doc = Some b.
Proof. simpl. eauto. Qed.

(** Inside the fragment the store's engine is the modelled one. *)
Lemma condition_match_agrees (w : world) (c : condition) (fv : option value)
    (b : bool) :
  condition_match c fv = Some b ->
  condition_holds (store_compile w) c fv = Some b.
Proof.
  destruct c as [v|pattern options]; [trivial|].
  cbn [condition_match condition_holds]. unfold store_compile, regex_search.
  destruct (parse_regex pattern) as [re|]; cbn [mbind option_bind].
  - set (m := fun text =>
                search (existsb (Ascii.eqb "i") (chars options)) re (chars text)).
    destruct fv as [x|]; [|trivial].
    destruct x as [| | | |s|l| |]; trivial.
    revert b. induction l as [|x l IH]; intros b; cbn [foldr existsb]; [trivial|].
    destruct (foldr _ _ l) as [b'|] eqn:E.
    + specialize (IH b' eq_refl). injection IH as IH.
      destruct x; cbn; intros [= <-]; now rewrite <- IH.
    + destruct x; cbn; discriminate.
  - destruct fv as [x|]; [|discriminate].
    destruct x as [| | | |s|l| |]; try discriminate.
    destruct l as [|x l]; cbn [foldr]; [discriminate|].
    destruct x; cbn; discriminate.
Qed.

Lemma clause_match_agrees (w : world) (doc : document) :
  forall (c : clause) (b : bool),
    clause_match c doc = Some b -> clause_holds (store_compile w) c doc = Some b.
Proof.
  fix IH 1. intros [name cond|alts] b.
  - apply condition_match_agrees.
  - cbn [clause_match clause_holds]. revert b.
    induction alts as [|f alts IHa]; intros b; [trivial|].
    assert (Hf : forall b0,
               (fix all (cs : list clause) : option bool :=
                  match cs with
                  | [] => Some true
                  | c :: cs' =>
                      b ← clause_match c doc; b' ← all cs'; Some (b && b')
                  end) f = Some b0 ->
               (fix all (cs : list clause) : option bool :=
                  match cs with
                  | [] => Some true
                  | c :: cs' =>
                      b ← clause_holds (store_compile w) c doc;
                      b' ← all cs'; Some (b && b')
                  end) f = Some b0).
    { induction f as [|c f IHf]; intros b0; [trivial|].
      destruct (clause_match c doc) as [bc|] eqn:Ec; [|discriminate].
      rewrite (IH c bc Ec). cbn [mbind option_bind].
      match goal with
      | |- option_bind _ _ _ ?t = _ -> _ => destruct t as [bf|] eqn:Ef
      | |- mbind _ ?t = _ -> _ => destruct t as [bf|] eqn:Ef
      end; [|discriminate].
      rewrite (IHf bf eq_refl). trivial. }
    match goal with
    | |- mbind _ ?t = _ -> _ => destruct t as [bf|] eqn:Ef
    | |- option_bind _ _ _ ?t = _ -> _ => destruct t as [bf|] eqn:Ef
    end; [|discriminate].
    rewrite (Hf bf eq_refl). cbn [mbind option_bind].
    match goal with
    | |- mbind _ ?t = _ -> _ => destruct t as [ba|] eqn:Ea
    | |- option_bind _ _ _ ?t = _ -> _ => destruct t as [ba|] eqn:Ea
    end; [|discriminate].
    rewrite (IHa ba eq_refl). trivial.
Qed.

Lemma filter_match_agrees (w : world) (doc : document) (f : filter) (b : bool) :
  filter_match f doc = Some b -> filter_holds (store_compile w) f doc = Some b.
Proof.
  revert b. induction f as [|c f IH]; intros b; [trivial|].
  cbn [filter_match filter_holds].
  destruct (clause_match c doc) as [bc|] eqn:Ec; [|discriminate].
  rewrite (clause_match_agrees w doc c bc Ec). cbn [mbind option_bind].
  destruct (filter_match f doc) as [bf|]; [|discriminate].
  now rewrite (IH bf eq_refl).
Qed.

Lemma select_agrees (w : world) (f : filter) (docs r : list document) :
  select f docs = Some r -> selection (store_compile w) f docs = Some r.
Proof.
  revert r. induction docs as [|doc docs IH]; intros r; [trivial|].
  cbn [select selection].
  destruct (filter_match f doc) as [b|] eqn:Eb; [|discriminate].
  rewrite (filter_match_agrees w doc f b Eb). cbn [mbind option_bind].
  destruct (select f docs) as [r'|]; [|discriminate].
  now rewrite (IH r' eq_refl).
Qed.

(** An engine that evaluates a filter on some document has compiled its
    patterns. *)
Lemma condition_holds_compiles
    (compile : string -> string -> option (string -> bool))
    (c : condition) (fv : option value) (b : bool) :
  condition_holds compile c fv = Some b -> condition_compiles compile c = true.
Proof.
  destruct c as [v|pattern options]; [trivial|].
  cbn [condition_holds condition_compiles].
  destruct (compile pattern options); [trivial|discriminate].
Qed.

Lemma clause_holds_compiles
    (compile : string -> string -> option (string -> bool)) (doc : document) :
  forall (c : clause) (b : bool),
    clause_holds compile c doc = Some b -> clause_compiles compile c = true.
Proof.
  fix IH 1. intros [name cond|alts] b.
  - apply condition_holds_compiles.
  - cbn [clause_holds clause_compiles]. revert b.
    induction alts as [|f alts IHa]; intros b; [trivial|].
    cbn [forallb].
    match goal with
    | |- mbind _ ?t = _ -> _ => destruct t as [bf|] eqn:Ef
    | |- option_bind _ _ _ ?t = _ -> _ => destruct t as [bf|] eqn:Ef
    end; [|discriminate].
    cbn [mbind option_bind].
    match goal with
    | |- mbind _ ?t = _ -> _ => destruct t as [ba|] eqn:Ea
    | |- option_bind _ _ _ ?t = _ -> _ => destruct t as [ba|] eqn:Ea
    end; [|discriminate].
    intros _. rewrite (IHa ba eq_refl), andb_true_r.
    clear Ea IHa. revert bf Ef.
    induction f as [|c f IHf]; intros bf; [trivial|].
    cbn [forallb].
    destruct (clause_holds compile c doc) as [bc|] eqn:Ec; [|discriminate].
    rewrite (IH c bc Ec). cbn [mbind option_bind andb].
    match goal with
    | |- mbind _ ?t = _ -> _ => destruct t as [bf'|] eqn:Ef'
    | |- option_bind _ _ _ ?t = _ -> _ => destruct t as [bf'|] eqn:Ef'
    end; [|discriminate].
    intros _. exact (IHf bf' eq_refl).
Qed.

Lemma filter_holds_compiles
    (compile : string -> string -> option (string -> bool))
    (doc : document) (f : filter) (b : bool) :
  filter_holds compile f doc = Some b -> filter_compiles compile f = true.
Proof.
  unfold filter_compiles.
  revert b. induction f as [|c f IH]; intros b; [trivial|].
  cbn [filter_holds forallb].
  destruct (clause_holds compile c doc) as [bc|] eqn:Ec; [|discriminate].
  rewrite (clause_holds_compiles compile doc c bc Ec).
  cbn [mbind option_bind andb].
  destruct (filter_holds compile f doc) as [bf|]; [|discriminate].
  intros _. exact (IH bf eq_refl).
Qed.

Lemma selection_compiles
    (compile : string -> string -> option (string -> bool))
    (f : filter) (docs r : list document) :
  selection compile f docs = Some r -> r <> [] ->
  filter_compiles compile f = true.
Proof.
  destruct docs as [|doc docs]; cbn [selection]; [congruence|].
  destruct (filter_holds compile f doc) as [b|] eqn:Eb; [|discriminate].
  intros _ _. exact (filter_holds_compiles compile doc f b Eb).
Qed.

Lemma run_query_select (w : world) (f : filter) (docs r : list document) :
  filter_compiles (store_compile w) f = true ->
  select f docs = Some r -> run_query f docs w = (Ok r, w).
Proof.
  intros Hc Hs. unfold run_query.
  now rewrite Hc, (select_agrees w f docs r Hs).
Qed.

Lemma select_by_id (h : string) (doc : document) (docs : list document) :
  id_taken (VObjectId h) docs = false ->
  select [Field "_id" (Equals (VObjectId h))]
         (docs ++ [<["_id" := VObjectId h]> doc])
  = Some [<["_id" := VObjectId h]> doc].
Proof.
  induction docs as [|old docs IH]; intros H.
  - cbn [app select]. cbn [filter_match clause_match condition_match].
    rewrite lookup_insert_eq. cbn. now rewrite String.eqb_refl.
  - cbn [id_taken existsb] in H. apply orb_false_elim in H as [H1 H2].
    cbn [app select]. fold (id_taken (VObjectId h) docs) in H2.
    rewrite (IH H2).
    destruct (filter_match_id (VObjectId h) old) as [b Hb].
    rewrite Hb in *. destruct b; [|reflexivity].
    now rewrite bool_decide_eq_false in H1.
Qed.

Lemma create_product_run (p : ProductIn) (w : world)
    (d : gmap string (list document)) :
  db w = Some d ->
  create_product p w =
    let oid := VObjectId (fresh_hex w) in
    match faults w (length (calls w)) with
    | Some msg =>
        (Raise (PyErr PyMongoError msg),
         log_call (InsertOne "product") (next_oid w))
    | None =>
        if id_taken oid (collection d "product")
        then (Raise (PyErr DuplicateKeyError "E11000 duplicate key error"),
              log_call (InsertOne "product") (next_oid w))
        else
          let w' := log_call (FindOne "product")
                      (after_insert "product" (toStoredDocument p) d w) in
          match faults w (S (length (calls w))) with
          | Some msg => (Raise (PyErr PyMongoError msg), w')
          | None =>
              (serialize_product (display (lib w)) (VDict (stored p oid)), w')
          end
    end.
Proof.
  intros Hdb. unfold create_product, create_document. rewrite Hdb.
  unfold bind. rewrite Hdb. rewrite (insert_one_run _ _ _ _ Hdb).
  destruct (faults w (length (calls w))) as [msg|]; [reflexivity|].
  destruct (id_taken (VObjectId (fresh_hex w)) (collection d "product")) eqn:Ht;
    [reflexivity|].
  cbn [ret Ok py_str lift].
  unfold fresh_hex at 1. rewrite ObjectId_of_str_hex. fold (fresh_hex w).
  unfold find_one, bind, the_db, driver_call, after_insert.
  cbn [db set_db log_call next_oid calls faults Ok].
  rewrite length_app. cbn [length]. rewrite Nat.add_1_r.
  destruct (faults w (S (length (calls w)))) as [msg|]; [reflexivity|].
  rewrite collection_insert.
  match goal with
  | |- context [run_query ?f ?docs ?w'] =>
      rewrite (run_query_select w' f docs _ eq_refl (select_by_id _ _ _ Ht))
  end.
  reflexivity.
Qed.

Lemma validate_ProductIn_fields (data : document) (p : ProductIn) :
  validate_ProductIn data = inr p ->
  required data "price" price_validator = inr (price p) /\
  defaulted data "rating" (Some 4.5%Q) rating_validator = inr (rating p).
Proof.
  unfold validate_ProductIn. intros H.
  apply vap_inr in H as (f7 & x7 & H & E7 & ->).
  apply vap_inr in H as (f6 & x6 & H & E6 & ->).
  apply vap_inr in H as (f5 & x5 & H & E5 & ->).
  apply vap_inr in H as (f4 & x4 & H & E4 & ->).
  apply vap_inr in H as (f3 & x3 & H & E3 & ->).
  apply vap_inr in H as (f2 & x2 & H & E2 & ->).
  apply vap_inr in H as (f1 & x1 & H & E1 & ->).
  injection H as <-. simpl. auto.
Qed.

Lemma price_validator_ge (l : list loc_item) (v : value) (q : Q) :
  price_validator l v = inr q -> Qle_bool 0 q = true.
Proof.
  unfold price_validator, check_ge.
  destruct (float_validator l v) as [|x]; simpl; [discriminate|].
  destruct (Qle_bool 0 x) eqn:E; [|discriminate]. now intros [= <-].
Qed.

Lemma rating_validator_range (l : list loc_item) (v : value) (q : Q) :
  rating_validator l v = inr (Some q) ->
  Qle_bool 0 q = true /\ Qle_bool q 5 = true.
Proof.
  unfold rating_validator, check_ge, check_le.
  assert (H : vbind (float_validator l v) (fun q0 =>
              vbind (if Qle_bool 0 q0 then inr q0 else invalid l "greater_than_equal")
                (fun q1 => vbind (if Qle_bool q1 5 then inr q1
                                  else invalid l "less_than_equal")
                   (fun q2 => inr (Some q2)))) = inr (Some q) ->
              Qle_bool 0 q = true /\ Qle_bool q 5 = true).
  { destruct (float_validator l v) as [|x]; simpl; [discriminate|].
    destruct (Qle_bool 0 x) eqn:E1; simpl; [|discriminate].
    destruct (Qle_bool x 5) eqn:E2; simpl; [|discriminate].
    now intros [= <-]. }
  destruct v; auto; discriminate.
Qed.

Lemma validated_bounds (data : document) (p : ProductIn) :
  validate_ProductIn data = inr p ->
  Qle_bool 0 (price p) = true /\
  Qle_bool 0 (read_back_rating (rating p)) = true /\
  Qle_bool (read_back_rating (rating p)) 5 = true.
Proof.
  intros H. destruct (validate_ProductIn_fields _ _ H) as [Hp Hr]. split.
  - unfold required in Hp. destruct (data !! "price"); [|discriminate].
    exact (price_validator_ge _ _ _ Hp).
  - unfold defaulted in Hr. destruct (rating p) as [q|] eqn:Eq; [|now split].
    assert (Hq : Qle_bool 0 q = true /\ Qle_bool q 5 = true).
    { destruct (data !! "rating").
      - exact (rating_validator_range _ _ _ Hr).
      - injection Hr as <-. now split. }
    simpl. destruct (Qeq_bool q 0); [now split|exact Hq].
Qed.

Lemma omitted_rating_default (data : document) (p : ProductIn) :
  validate_ProductIn data = inr p -> data !! "rating" = None ->
  rating p = Some 4.5%Q.
Proof.
  intros H Hr. destruct (validate_ProductIn_fields _ _ H) as [_ E].
  unfold defaulted in E. rewrite Hr in E. now injection E as <-.
Qed.

(** Whatever the store does, a product returned by [create_product] is the
    one read back from the stored form of the input. *)
Lemma create_product_returns (p : ProductIn) (w w' : world) (p' : Product) :
  create_product p w = (inr p', w') -> exists hex, p' = read_back p hex.
Proof.
  destruct (db w) as [d|] eqn:Hdb.
  - rewrite (create_product_run _ _ _ Hdb). cbv zeta.
    destruct (faults w (length (calls w))); [discriminate|].
    destruct (id_taken _ _); [discriminate|].
    destruct (faults w (S (length (calls w)))); [discriminate|].
    intros [= H _]. exists (fresh_hex w).
    destruct (serialize_stored_cases (display (lib w)) p (fresh_hex w))
      as [E|[es E]];
      rewrite E in H; [now injection H as <-|discriminate].
  - unfold create_product. rewrite Hdb. discriminate.
Qed.

(** On a store that answers, a validated product is created and returned. *)
Lemma create_product_ok (data : document) (p : ProductIn) (w : world)
    (d : gmap string (list document)) :
  validate_ProductIn data = inr p ->
  db w = Some d ->
  faults w (length (calls w)) = None ->
  faults w (S (length (calls w))) = None ->
  id_taken (VObjectId (fresh_hex w)) (collection d "product") = false ->
  create_product p w =
    (Ok (read_back p (fresh_hex w)),
     log_call (FindOne "product")
       (after_insert "product" (toStoredDocument p) d w)).
Proof.
  intros Hv Hdb Hf1 Hf2 Ht. rewrite (create_product_run _ _ _ Hdb). cbv zeta.
  rewrite Hf1, Ht, Hf2.
  destruct (validated_bounds _ _ Hv) as (H1 & H2 & H3).
  now rewrite (serialize_stored_ok _ _ _ H1 H2 H3).
Qed.

Lemma respond_product (h : M Product) (w w' : world) (p' : Product) :
  respond JProduct h w = (mk_response 200 (JProduct p'), w') ->
  h w = (inr p', w').
Proof.
  unfold respond. destruct (h w) as [[e|a] w1].
  - destruct e; discriminate.
  - now intros [= -> ->].
Qed.

(** *** C3 *)

(** C3: for a payload that passes validation (so its price is at least 0)
    and has no [rating], every Product that [POST /api/products] returns
    has rating 4.5; and on a store that answers the two calls and does not
    hold the new identifier yet, a Product is returned. *)
Theorem created_product_default_rating
    (w : world) (data : document) (p : ProductIn) :
  validate_ProductIn data = inr p ->
  data !! "rating" = None ->
  (forall p' w',
     post_api_products (VDict data) w = (mk_response 200 (JProduct p'), w') ->
     rating p' = Some 4.5%Q) /\
  (forall d,
     db w = Some d ->
     faults w (length (calls w)) = None ->
     faults w (S (length (calls w))) = None ->
     id_taken (VObjectId (fresh_hex w)) (collection d "product") = false ->
     exists p' w',
       post_api_products (VDict data) w = (mk_response 200 (JProduct p'), w') /\
       rating p' = Some 4.5%Q).
Proof.
  intros Hv Hr. pose proof (omitted_rating_default _ _ Hv Hr) as Hp.
  unfold post_api_products. rewrite Hv. split.
  - intros p' w' H. apply respond_product in H.
    destruct (create_product_returns _ _ _ _ H) as [oid ->].
    simpl. now rewrite Hp.
  - intros d Hdb Hf1 Hf2 Ht. unfold respond.
    rewrite (create_product_ok _ _ _ _ Hv Hdb Hf1 Hf2 Ht).
    eexists _, _. split; [reflexivity|]. simpl. now rewrite Hp.
Qed.

Lemma created_product_default_rating_witness :
  exists p' w',
    post_api_products (VDict plain_payload) empty_world
    = (mk_response 200 (JProduct p'), w') /\
    rating p' = Some 4.5%Q.
Proof.
  refine (proj2 (created_product_default_rating empty_world plain_payload
                   (mk_ProductIn "Atlas" None (inject_Z 3) "books" None (Some 4.5%Q) [])
                   _ _) ∅ _ _ _ _); vm_compute; reflexivity.
Defined.

(** *** C10 *)

(** C10: there is a payload with an explicit null rating that passes
    validation, is created, and comes back with rating 0 instead of the
    default 4.5. *)
Theorem explicit_null_rating_reads_back_zero :
  exists (data : document) (p : ProductIn) (w : world) (p' : Product),
    data !! "rating" = Some VNone /\
    validate_ProductIn data = inr p /\
    (post_api_products (VDict data) w).1 = mk_response 200 (JProduct p') /\
    rating p' = Some 0%Q /\
    rating p' <> Some 4.5%Q.
Proof.
  exists null_rating_payload,
         (mk_ProductIn "Atlas" None (inject_Z 3) "books" None None []),
         empty_world,
         (read_back (mk_ProductIn "Atlas" None (inject_Z 3) "books" None None [])
                    (fresh_hex empty_world)).
  split; [vm_compute; reflexivity|].
  split; [vm_compute; reflexivity|].
  split; [vm_compute; reflexivity|].
  split; [reflexivity|discriminate].
Qed.

(** *** C4 *)

(** C4, as stated, fails: with no store, a payload that does not pass
    validation is answered 422, not 500. *)
Lemma post_api_products_unavailable_invalid_payload :
  db unavailable_world = None /\
  status (post_api_products (VDict negative_price_payload) unavailable_world).1 = 422.
Proof. split; vm_compute; reflexivity. Qed.

(** C4, amended: with no store, [POST /api/products] leaves the world as it
    was whatever the payload, and answers 500 "Database not available" when
    the payload passes validation. *)
Theorem post_api_products_unavailable (w : world) (payload : value) :
  db w = None ->
  (post_api_products payload w).2 = w /\
  (binds payload = true ->
   (post_api_products payload w).1
   = mk_response 500 (JDetail "Database not available")).
Proof.
  intros Hdb. unfold post_api_products, binds.
  destruct payload; try (split; [reflexivity|discriminate]).
  destruct (validate_ProductIn d) as [es|p].
  - split; [reflexivity|discriminate].
  - unfold respond, create_product. rewrite Hdb. split; reflexivity.
Qed.

Lemma post_api_products_unavailable_witness :
  (post_api_products (VDict plain_payload) unavailable_world).2 = unavailable_world /\
  (post_api_products (VDict plain_payload) unavailable_world).1
  = mk_response 500 (JDetail "Database not available").
Proof.
  destruct (post_api_products_unavailable unavailable_world (VDict plain_payload))
    as [H1 H2]; [reflexivity|].
  split; [exact H1|apply H2; vm_compute; reflexivity].
Defined.

(** ** Listing products *)

Lemma serialize_demo_document (display : value -> string) (hex : string) :
  serialize_product display (VDict (demo_document (VObjectId hex)))
  = Ok (demo_product hex).
Proof. reflexivity. Qed.

(** *** C5 *)

(** C5, as stated, fails: with no store, a request whose [limit] is out of
    range is answered 422 and no product. *)
Lemma get_api_products_unavailable_bad_limit :
  db unavailable_world = None /\
  get_api_products None None (Some "101") unavailable_world
  = (mk_response 422
       (JValidation [mk_error [LField "query"; LField "limit"] "less_than_equal"]),
     unavailable_world).
Proof. split; vm_compute; reflexivity. Qed.

(** C5, amended: with no store, [GET /api/products] answers every request
    whose [limit] is absent or an integer of [1,100] with exactly one
    product, the demo product, whose category is "books", whatever
    [category] and [q] are. *)
Theorem get_api_products_unavailable
    (w : world) (category_ q limit : option string) (n : Z) :
  db w = None ->
  limit_validator (int_reading w) limit = inr n ->
  exists p,
    get_api_products category_ q limit w
    = (mk_response 200 (JProducts [p]), next_oid w) /\
    p = demo_product (fresh_hex w) /\
    category p = "books".
Proof.
  intros Hdb Hn. exists (demo_product (fresh_hex w)).
  unfold get_api_products. rewrite Hn.
  unfold respond, list_products. rewrite Hdb.
  unfold bind, ObjectId_new, lift. cbv zeta. cbn [map comprehension Ok].
  fold (fresh_hex w). rewrite serialize_demo_document.
  repeat split.
Qed.

Lemma get_api_products_unavailable_witness :
  exists p,
    get_api_products (Some "merch") (Some "tote") (Some "7") unavailable_world
    = (mk_response 200 (JProducts [p]), next_oid unavailable_world) /\
    p = demo_product (fresh_hex unavailable_world) /\
    category p = "books".
Proof.
  apply (get_api_products_unavailable unavailable_world _ _ _ 7);
    vm_compute; reflexivity.
Defined.

(** *** C6 *)



(** ** Diagnostics *)

Lemma slice_to_length (n : nat) (text : string) :
  (String.length (slice_to n text) <= n)%nat.
Proof.
  unfold slice_to. rewrite string_length_of_list, length_take. lia.
Qed.

(** *** C8 *)

(** C8: [GET /test] answers 200 with a report in every world; the report
    lists at most 10 collection names; and when [list_collection_names]
    raises, the [database] entry is the text "Connected but Error" followed
    by the first 50 characters of the message. *)
Theorem get_test_always_reports (w : world) :
  exists r w',
    get_test w = (mk_response 200 (JReport r), w') /\
    (length (collections r) <= 10)%nat /\
    (forall d msg,
       db w = Some d ->
       faults w (length (calls w)) = Some msg ->
       database r = "⚠️ Connected but Error: " +:+ slice_to 50 msg /\
       (String.length (slice_to 50 msg) <= 50)%nat).
Proof.
  unfold get_test, respond, test_database, try_except.
  destruct (db w) as [d|] eqn:Hdb.
  - unfold bind, getenv, list_collection_names, bind, the_db, driver_call.
    rewrite Hdb. cbn [Ok].
    destruct (faults w (length (calls w))) as [msg|] eqn:Hf.
    + eexists _, _. split; [reflexivity|]. split; [simpl; lia|].
      intros d' msg' _ [= <-]. split; [reflexivity|apply slice_to_length].
    + eexists _, _. split; [reflexivity|]. split.
      * cbn [collections set_database set_collections ret Ok].
        rewrite length_take. lia.
      * intros d' msg' _ [=].
  - eexists _, _. split; [reflexivity|]. split; [simpl; lia|].
    intros d msg [=].
Qed.

Lemma get_test_always_reports_witness :
  exists r w',
    get_test failing_world = (mk_response 200 (JReport r), w') /\
    database r = "⚠️ Connected but Error: connection refused".
Proof.
  destruct (get_test_always_reports failing_world) as (r & w' & H1 & _ & H3).
  exists r, w'. split; [exact H1|].
  exact (proj1 (H3 ∅ "connection refused" eq_refl eq_refl)).
Defined.

(** ** Searching *)

Lemma not_meta (c : ascii) :
  is_meta c = false ->
  Ascii.eqb c "\" = false /\ Ascii.eqb c "." = false /\
  Ascii.eqb c "?" = false /\ Ascii.eqb c "*" = false /\ Ascii.eqb c "+" = false.
Proof.
  unfold is_meta. cbn [chars list_ascii_of_string existsb]. intros H.
  repeat (apply orb_false_elim in H as [? H]). auto.
Qed.

Lemma take_quantifier_plain (l : list ascii) :
  forallb (fun c => negb (is_meta c)) l = true -> take_quantifier l = (QOne, l).
Proof.
  destruct l as [|c l]; [reflexivity|]. cbn [forallb].
  intros H. apply andb_prop in H as [H _]. apply negb_true_iff in H.
  destruct (not_meta _ H) as (_ & _ & H1 & H2 & H3).
  unfold take_quantifier. now rewrite H1, H2, H3.
Qed.

Lemma parse_items_plain (l : list ascii) :
  forall fuel,
    forallb (fun c => negb (is_meta c)) l = true ->
    (length l <= fuel)%nat ->
    parse_items fuel l = Some (literal l).
Proof.
  induction l as [|c l IH]; intros fuel H Hf.
  - now destruct fuel.
  - destruct fuel as [|fuel]; [simpl in Hf; lia|].
    cbn [forallb] in H. apply andb_prop in H as [Hc Hl].
    apply negb_true_iff in Hc. destruct (not_meta _ Hc) as (H1 & H2 & _).
    cbn [parse_items]. rewrite H1, H2, Hc, (take_quantifier_plain _ Hl).
    rewrite (IH fuel Hl); [reflexivity|simpl in Hf; lia].
Qed.

Lemma chars_length (s : string) : length (chars s) = String.length s.
Proof. induction s; simpl; congruence. Qed.

Lemma parse_regex_plain (q : string) :
  plain q -> parse_regex q = Some (literal (chars q)).
Proof.
  intros H. apply parse_items_plain; [exact H|]. now rewrite chars_length.
Qed.

Lemma match_here_literal (q : list ascii) :
  forall s rest,
    map lower s = (map lower q ++ rest)%list ->
    match_here true (literal q) s = true.
Proof.
  induction q as [|c q IH]; intros s rest H; [reflexivity|].
  destruct s as [|c' s]; [discriminate|].
  cbn [map app] in H. injection H as Hc Hs.
  cbn [literal map match_here atom_accepts].
  rewrite Hc, Ascii.eqb_refl. exact (IH _ _ Hs).
Qed.

Lemma search_literal (q : list ascii) (pre : list ascii) :
  forall s rest,
    map lower s = (pre ++ map lower q ++ rest)%list ->
    search true (literal q) s = true.
Proof.
  induction pre as [|a pre IH]; intros s rest H.
  - destruct s; cbn [search]; rewrite (match_here_literal _ _ _ H); reflexivity.
  - destruct s as [|c s]; [discriminate|]. injection H as _ Hs.
    cbn [search]. rewrite (IH _ _ Hs). apply orb_true_r.
Qed.

Lemma regex_search_plain (q t : string) :
  plain q -> ci_substring q t -> regex_search q "i" t = Some true.
Proof.
  intros Hq (pre & post & H). unfold regex_search.
  rewrite (parse_regex_plain _ Hq). cbn [mbind option_bind].
  change (existsb (Ascii.eqb "i") (chars "i")) with true.
  now rewrite (search_literal _ _ _ _ H).
Qed.

Lemma on_text_total (q : string) (re : regex) (x : value) :
  parse_regex q = Some re ->
  exists b,
    match x with
    | VStr s => regex_search q "i" s
    | _ => _ ← parse_regex q; Some false
    end = Some b.
Proof.
  intros H. unfold regex_search. rewrite H. destruct x; simpl; eauto.
Qed.

Lemma condition_match_total (q : string) (fv : option value) :
  plain q -> exists b, condition_match (Regex q "i") fv = Some b.
Proof.
  intros Hq. pose proof (parse_regex_plain _ Hq) as Hp.
  cbn [condition_match].
  destruct fv as [x|]; [|exact (on_text_total _ _ VNone Hp)].
  destruct x as [| | | |s|l| |];
    try exact (on_text_total _ _ VNone Hp);
    [exact (on_text_total _ _ (VStr s) Hp)|].
  induction l as [|x l [b IH]]; cbn [foldr].
  - exact (on_text_total _ _ VNone Hp).
  - destruct (on_text_total _ _ x Hp) as [b' ->]. rewrite IH. simpl. eauto.
Qed.

Lemma condition_match_contains (q : string) (fv : option value) :
  plain q -> field_contains q fv -> condition_match (Regex q "i") fv = Some true.
Proof.
  intros Hq [(s & -> & Hs)|(l & s & -> & Hin & Hs)].
  - exact (regex_search_plain _ _ Hq Hs).
  - pose proof (parse_regex_plain _ Hq) as Hp. cbn [condition_match].
    induction l as [|x l IH]; [destruct Hin|]. cbn [foldr].
    destruct (condition_match_total q (Some (VList l)) Hq) as [b Hb].
    cbn [condition_match] in Hb. rewrite Hb.
    destruct Hin as [-> | Hin].
    + now rewrite (regex_search_plain _ _ Hq Hs).
    + rewrite (IH Hin) in Hb. injection Hb as <-.
      destruct (on_text_total _ _ x Hp) as [b' ->]. simpl. now rewrite orb_true_r.
Qed.

Lemma filter_match_app_true (f1 f2 : filter) (doc : document) :
  filter_match f1 doc = Some true ->
  filter_match f2 doc = Some true ->
  filter_match (f1 ++ f2)%list doc = Some true.
Proof.
  intros H1 H2. induction f1 as [|c f1 IH]; [exact H2|].
  cbn [app filter_match] in *.
  destruct (clause_match c doc) as [b|]; [|discriminate]. cbn in *.
  destruct (filter_match f1 doc) as [b'|]; [|discriminate]. cbn in *.
  injection H1 as H1. apply andb_prop in H1 as [-> ->].
  now rewrite IH.
Qed.

(** *** C9 *)

(** C9, as stated, fails: [q] is used as a regular expression, so a [q]
    with a special character need not select a document in which it occurs
    as a text. *)
Lemma regex_query_misses_literal_occurrence :
  ci_substring "2+2" "2+2=4" /\
  sum_document !! "title" = Some (VStr "2+2=4") /\
  filter_match (build_filter None (Some "2+2")) sum_document = Some false.
Proof.
  split; [|split; vm_compute; reflexivity].
  exists [], (chars "=4"). vm_compute. reflexivity.
Qed.

(** C9, amended: for a [q] without a character that is special in a
    regular expression, the filter sent to the store selects every document
    (of the requested category, when one is requested) in which [q] occurs,
    letters compared without case, in the title, or in the description, or
    in an entry of the tags. *)
Theorem build_filter_selects
    (category_ : option string) (q : string) (doc : document) :
  plain q ->
  (forall c, given category_ = Some c -> doc !! "category" = Some (VStr c)) ->
  field_contains q (doc !! "title") \/
  field_contains q (doc !! "description") \/
  field_contains q (doc !! "tags") ->
  filter_match (build_filter category_ (Some q)) doc = Some true.
Proof.
  intros Hq Hc H. unfold build_filter. apply filter_match_app_true.
  - destruct (given category_) as [c|]; [|reflexivity].
    cbn [filter_match clause_match condition_match].
    rewrite (Hc c eq_refl). cbn [scalar_eqb]. now rewrite String.eqb_refl.
  - unfold given. destruct (String.eqb q ""); [reflexivity|].
    cbn [filter_match clause_match].
    destruct (condition_match_total q (doc !! "title") Hq) as [b1 H1].
    destruct (condition_match_total q (doc !! "description") Hq) as [b2 H2].
    destruct (condition_match_total q (doc !! "tags") Hq) as [b3 H3].
    destruct H as [H|[H|H]]; apply (condition_match_contains _ _ Hq) in H.
    + rewrite H, H2, H3. simpl. reflexivity.
    + rewrite H1, H, H3. simpl. now rewrite !andb_true_r, orb_true_r.
    + rewrite H1, H2, H. simpl. now rewrite !andb_true_r, !orb_true_r.
Qed.

Lemma build_filter_selects_witness :
  filter_match (build_filter None (Some "coffee")) espresso_document = Some true.
Proof.
  apply (build_filter_selects None "coffee" espresso_document).
  - vm_compute. reflexivity.
  - intros c H. discriminate H.
  - right; right. right. exists [VStr "Coffee"], "Coffee".
    split; [vm_compute; reflexivity|]. split; [left; reflexivity|].
    exists [], []. vm_compute. reflexivity.
Defined.

(** ** Seeding *)

Lemma create_document_run (c : string) (s : document) (w : world)
    (d : gmap string (list document)) :
  db w = Some d ->
  create_document c s w =
    match faults w (length (calls w)) with
    | Some msg =>
        (Raise (PyErr PyMongoError msg), log_call (InsertOne c) (next_oid w))
    | None =>
        if id_taken (VObjectId (fresh_hex w)) (collection d c)
        then (Raise (PyErr DuplicateKeyError "E11000 duplicate key error"),
              log_call (InsertOne c) (next_oid w))
        else (Ok (fresh_hex w), after_insert c s d w)
    end.
Proof.
  intros Hdb. unfold create_document. rewrite Hdb.
  unfold bind. rewrite (insert_one_run _ _ _ _ Hdb).
  destruct (faults w (length (calls w))); [reflexivity|].
  destruct (id_taken _ _); reflexivity.
Qed.

Lemma products_after_insert (s : document) (d : gmap string (list document))
    (w : world) :
  products (after_insert "product" s d w)
  = (collection d "product" ++ [with_id (fresh_hex w) s])%list.
Proof. unfold products, after_insert. cbn [db set_db]. apply collection_insert. Qed.

(** One insertion adds at most one document. *)
Lemma seed_one_growth (s : document) (w : world) :
  (length (products (seed_one s w).2) <= S (length (products w)))%nat.
Proof.
  unfold seed_one, bind. destruct (db w) as [d|] eqn:Hdb.
  - rewrite (create_document_run _ _ _ _ Hdb).
    destruct (faults w (length (calls w))).
    + unfold Raise. cbn [snd]. unfold products. cbn [db log_call next_oid].
      rewrite Hdb. lia.
    + destruct (id_taken _ _).
      * unfold Raise. cbn [snd]. unfold products. cbn [db log_call next_oid].
        rewrite Hdb. lia.
      * unfold Ok, ret. cbn [snd]. rewrite products_after_insert, length_app.
        unfold products. rewrite Hdb. simpl. lia.
  - unfold create_document. rewrite Hdb. simpl. lia.
Qed.

Lemma for_each_growth (docs : list document) :
  forall w,
    (length (products (for_each docs seed_one w).2)
     <= length (products w) + length docs)%nat.
Proof.
  induction docs as [|s docs IH]; intros w; [simpl; lia|].
  cbn [for_each]. unfold bind at 1.
  pose proof (seed_one_growth s w) as H1.
  destruct (seed_one s w) as [[e|[]] w1]; cbn [snd] in *.
  - simpl. lia.
  - specialize (IH w1). simpl. lia.
Qed.

Lemma seed_body_effect (w : world) :
  (products w <> [] -> db (seed_body w).2 = db w) /\
  (products w = [] -> (length (products (seed_body w).2) <= 8)%nat).
Proof.
  unfold seed_body, products at 1 2. destruct (db w) as [d|] eqn:Hdb.
  - unfold bind at 1. unfold count_documents, bind, the_db, driver_call.
    rewrite Hdb. unfold Ok, Raise, ret.
    destruct (faults w (length (calls w))).
    + cbn [snd]. split; [intros _; exact Hdb|].
      intros E. unfold products. cbn [db log_call]. rewrite Hdb, E. simpl. lia.
    + destruct (collection d "product") as [|x l] eqn:Hc.
      * split; [congruence|intros _]. cbn [length Z.of_nat Z.gtb Z.compare].
        fold seed_one.
        pose proof (for_each_growth samples (log_call (CountDocuments "product") w)) as H.
        unfold products at 2 in H. cbn [db log_call] in H.
        rewrite Hdb, Hc in H. exact H.
      * split; [intros _|discriminate].
        replace (Z.of_nat (length (x :: l)) >? 0) with true; [exact Hdb|].
        symmetry. apply Z.gtb_lt. simpl. lia.
  - unfold ret, Ok. cbn [snd]. split; [intros _; exact Hdb|].
    intros _. unfold products. rewrite Hdb. simpl. lia.
Qed.

Lemma seed_products_if_empty_world (w : world) :
  seed_products_if_empty w = (Ok tt, (seed_body w).2).
Proof.
  unfold seed_products_if_empty, try_except.
  destruct (seed_body w) as [[e|[]] w']; reflexivity.
Qed.

Lemma products_same_db (w w' : world) : db w' = db w -> products w' = products w.
Proof. unfold products. now intros ->. Qed.

(** Two runs add at most 8 documents, whatever the store does. *)
Lemma seed_twice_bound (w : world) :
  (length (products (seed_body (seed_body w).2).2) <= length (products w) + 8)%nat.
Proof.
  destruct (seed_body_effect w) as [H1 H2].
  destruct (seed_body_effect (seed_body w).2) as [H3 H4].
  assert (Hd : forall l : list document, l = [] \/ l <> [])
    by (intros []; [left; reflexivity|right; discriminate]).
  destruct (Hd (products w)) as [E|E].
  - specialize (H2 E). destruct (Hd (products (seed_body w).2)) as [E'|E'].
    + specialize (H4 E'). lia.
    + rewrite (products_same_db _ _ (H3 E')). lia.
  - pose proof (products_same_db _ _ (H1 E)) as E1.
    assert (E' : products (seed_body w).2 <> []) by now rewrite E1.
    rewrite (products_same_db _ _ (H3 E')), E1. lia.
Qed.

Lemma id_taken_app (oid : value) (l1 l2 : list document) :
  id_taken oid (l1 ++ l2) = id_taken oid l1 || id_taken oid l2.
Proof. apply existsb_app. Qed.

Lemma id_taken_single (h h0 : string) (s : document) :
  id_taken (VObjectId h) [with_id h0 s] = String.eqb h h0.
Proof.
  unfold id_taken, with_id. cbn [existsb filter_match clause_match condition_match].
  rewrite lookup_insert_eq. cbn [scalar_eqb mbind option_bind].
  now destruct (String.eqb h h0).
Qed.

Lemma hexes_after_insert (s : document) (d : gmap string (list document))
    (w : world) (n : nat) :
  hexes w (S n) = fresh_hex w :: hexes (after_insert "product" s d w) n.
Proof.
  unfold hexes, fresh_hex, after_insert.
  cbn [oids oid_next set_db log_call next_oid seq map].
  rewrite Nat.add_0_r. f_equal.
  rewrite <- seq_shift, map_map. apply map_ext. intros i.
  now rewrite Nat.add_succ_r.
Qed.

(** On a store that answers, with fresh identifiers, the loop inserts every
    document, in order. *)
Lemma for_each_seed_one_ok (docs : list document) :
  forall (w : world) (d : gmap string (list document)),
    db w = Some d ->
    (forall i, (i < length docs)%nat -> faults w (length (calls w) + i) = None) ->
    NoDup (hexes w (length docs)) ->
    (forall h, In h (hexes w (length docs)) ->
               id_taken (VObjectId h) (collection d "product") = false) ->
    exists w',
      for_each docs seed_one w = (Ok tt, w') /\
      products w'
      = (products w ++ zip_with with_id (hexes w (length docs)) docs)%list.
Proof.
  induction docs as [|s docs IH]; intros w d Hdb Hf Hn Ht.
  - exists w. split; [reflexivity|]. simpl. now rewrite app_nil_r.
  - cbn [length] in *.
    rewrite (hexes_after_insert s d) in Hn, Ht |- *.
    set (w1 := after_insert "product" s d w) in *.
    assert (Hf0 : faults w (length (calls w)) = None).
    { rewrite <- (Nat.add_0_r (length (calls w))). apply Hf. lia. }
    assert (Ht0 : id_taken (VObjectId (fresh_hex w)) (collection d "product") = false).
    { apply Ht. now left. }
    apply NoDup_cons in Hn as [Hnot Hn].
    destruct (IH w1 (<["product" :=
                (collection d "product" ++ [with_id (fresh_hex w) s])%list]> d))
      as (w' & Hrun & Hprod).
    + reflexivity.
    + intros i Hi. unfold w1, after_insert.
      cbn [faults calls set_db log_call next_oid].
      rewrite length_app. cbn [length].
      replace (length (calls w) + 1 + i)%nat with (length (calls w) + S i)%nat by lia.
      apply Hf. lia.
    + exact Hn.
    + intros h Hh. rewrite collection_insert, id_taken_app, id_taken_single.
      rewrite (Ht h (or_intror Hh)). cbn [orb].
      apply String.eqb_neq. intros ->. apply Hnot.
      now apply list_elem_of_In.
    + exists w'. split.
      * cbn [for_each]. unfold bind at 1. unfold seed_one at 1, bind.
        rewrite (create_document_run _ _ _ _ Hdb), Hf0, Ht0.
        unfold Ok, ret. fold w1. exact Hrun.
      * rewrite Hprod. unfold w1. rewrite products_after_insert.
        unfold products. rewrite Hdb.
        cbn [zip_with]. now rewrite <- app_assoc.
Qed.

Lemma count_documents_run (c : string) (w : world)
    (d : gmap string (list document)) :
  db w = Some d ->
  count_documents c w =
    match faults w (length (calls w)) with
    | Some msg => (Raise (PyErr PyMongoError msg), log_call (CountDocuments c) w)
    | None =>
        (Ok (Z.of_nat (length (collection d c))), log_call (CountDocuments c) w)
    end.
Proof.
  intros Hdb. unfold count_documents, bind, the_db, driver_call. rewrite Hdb.
  destruct (faults w (length (calls w))); reflexivity.
Qed.

Lemma seed_body_run (w : world) (d : gmap string (list document)) :
  db w = Some d ->
  seed_body w =
    match faults w (length (calls w)) with
    | Some msg =>
        (Raise (PyErr PyMongoError msg), log_call (CountDocuments "product") w)
    | None =>
        if Z.of_nat (length (collection d "product")) >? 0
        then (Ok tt, log_call (CountDocuments "product") w)
        else for_each samples seed_one (log_call (CountDocuments "product") w)
    end.
Proof.
  intros Hdb. unfold seed_body. rewrite Hdb. unfold bind at 1.
  rewrite (count_documents_run _ _ _ Hdb).
  destruct (faults w (length (calls w))); [reflexivity|].
  unfold Ok at 1. cbv beta iota.
  destruct (Z.of_nat (length (collection d "product")) >? 0); reflexivity.
Qed.

(** The first run on an empty collection of a store that answers. *)
Lemma seed_body_first_run (w : world) (d : gmap string (list document)) :
  db w = Some d ->
  collection d "product" = [] ->
  (forall i, (i < 9)%nat -> faults w (length (calls w) + i) = None) ->
  NoDup (hexes w 8) ->
  products (seed_body w).2 = zip_with with_id (hexes w 8) samples.
Proof.
  intros Hdb Hc Hf Hn.
  rewrite (seed_body_run _ _ Hdb).
  rewrite <- (Nat.add_0_r (length (calls w))), (Hf 0%nat) by lia.
  rewrite Hc. change (Z.of_nat (length []) >? 0) with false. cbv iota.
  destruct (for_each_seed_one_ok samples (log_call (CountDocuments "product") w) d)
    as (w' & Hrun & Hprod).
  - exact Hdb.
  - intros i Hi. cbn [faults calls log_call]. rewrite length_app. cbn [length].
    replace (length (calls w) + 1 + i)%nat with (length (calls w) + S i)%nat by lia.
    apply Hf. simpl in Hi. lia.
  - exact Hn.
  - intros h _. now rewrite Hc.
  - rewrite Hrun. cbn [snd]. rewrite Hprod.
    unfold products. cbn [db log_call]. rewrite Hdb, Hc. reflexivity.
Qed.

(** *** C7 *)

(** C7: seeding never raises; without a store it changes nothing; two runs
    in a row add at most 8 documents to the collection, whatever the store
    does; and on an empty collection of a store that answers, the first
    run inserts the 8 samples, each with its new identifier, and the second
    run leaves the database as the first one left it. *)
Theorem seeding_twice (w : world) :
  (seed_products_if_empty w).1 = Ok tt /\
  (db w = None -> (seed_products_if_empty w).2 = w) /\
  (length (products (seed_products_if_empty (seed_products_if_empty w).2).2)
   <= length (products w) + 8)%nat /\
  (forall d,
     db w = Some d ->
     collection d "product" = [] ->
     (forall i, (i < 9)%nat -> faults w (length (calls w) + i) = None) ->
     NoDup (hexes w 8) ->
     products (seed_products_if_empty w).2 = zip_with with_id (hexes w 8) samples /\
     length (products (seed_products_if_empty w).2) = 8%nat /\
     db (seed_products_if_empty (seed_products_if_empty w).2).2
     = db (seed_products_if_empty w).2).
Proof.
  rewrite !seed_products_if_empty_world. cbn [fst snd].
  split; [reflexivity|]. split; [|split].
  - intros Hdb. unfold seed_body. now rewrite Hdb.
  - apply seed_twice_bound.
  - intros d Hdb Hc Hf Hn.
    pose proof (seed_body_first_run _ _ Hdb Hc Hf Hn) as H1.
    assert (H8 : length (products (seed_body w).2) = 8%nat).
    { rewrite H1, length_zip_with. unfold hexes.
      rewrite length_map, length_seq. reflexivity. }
    split; [exact H1|]. split; [exact H8|].
    apply (proj1 (seed_body_effect (seed_body w).2)).
    intros E. rewrite E in H8. discriminate H8.
Qed.

Lemma seeding_twice_witness :
  length (products (seed_products_if_empty empty_world).2) = 8%nat /\
  db (seed_products_if_empty (seed_products_if_empty empty_world).2).2
  = db (seed_products_if_empty empty_world).2.
Proof.
  destruct (seeding_twice empty_world) as (_ & _ & _ & H).
  destruct (H ∅) as (_ & H1 & H2).
  - reflexivity.
  - reflexivity.
  - intros i _. reflexivity.
  - apply (bool_decide_unpack _). vm_compute. exact I.
  - split; [exact H1|exact H2].
Defined.

(** * Further properties of the handlers *)

(** ** What [serialize_product] returns *)

Lemma new_Product_inv (kw : document) (p : Product) :
  new_Product kw = Ok p -> validate_Product kw = inr p.
Proof.
  unfold new_Product. destruct (validate_Product kw); [discriminate|].
  now intros [= ->].
Qed.

Lemma rbind_Ok {A B} (r : result A) (k : A -> result B) (b : B) :
  rbind r k = Ok b -> exists a, r = Ok a /\ k a = Ok b.
Proof. destruct r as [e|a]; simpl; [discriminate|eauto]. Qed.

(** A successful conversion, field by field. *)
Lemma serialize_product_inv
    (display : value -> string) (d : document) (p : Product) :
  serialize_product display (VDict d) = Ok p ->
  exists pr r tg,
    py_float (default (VInt 0) (d !! "price")) = Ok pr /\
    py_float (py_or (default (VInt 0) (d !! "rating")) (VInt 0)) = Ok r /\
    py_list (py_or (default (VList []) (d !! "tags")) (VList [])) = Ok tg /\
    str_validator [LField "title"] (default (VStr "") (d !! "title")) = inr (title p) /\
    opt_str_validator [LField "description"] (default VNone (d !! "description"))
    = inr (description p) /\
    price_validator [LField "price"] (VFloat pr) = inr (price p) /\
    str_validator [LField "category"] (default (VStr "") (d !! "category"))
    = inr (category p) /\
    opt_str_validator [LField "image"] (default VNone (d !! "image")) = inr (image p) /\
    rating_validator [LField "rating"] (VFloat r) = inr (rating p) /\
    tags_validator [LField "tags"] (VList tg) = inr (tags p) /\
    id p = py_str display (default VNone (d !! "_id")).
Proof.
  rewrite serialize_product_dict. intros H.
  apply rbind_Ok in H as (pr & Hpr & H).
  apply rbind_Ok in H as (r & Hr & H).
  apply rbind_Ok in H as (tg & Htg & H).
  apply new_Product_inv in H. rewrite validate_Product_kwargs in H.
  apply vap_inr in H as (g & xid & H & Eid & ->).
  apply vap_inr in H as (g0 & pin & H & Epin & ->).
  injection H as <-.
  apply vap_inr in Epin as (f7 & x7 & H & E7 & ->).
  apply vap_inr in H as (f6 & x6 & H & E6 & ->).
  apply vap_inr in H as (f5 & x5 & H & E5 & ->).
  apply vap_inr in H as (f4 & x4 & H & E4 & ->).
  apply vap_inr in H as (f3 & x3 & H & E3 & ->).
  apply vap_inr in H as (f2 & x2 & H & E2 & ->).
  apply vap_inr in H as (f1 & x1 & H & E1 & ->).
  injection H as <-. injection Eid as <-.
  exists pr, r, tg. cbn [title description price category image rating tags fields id].
  repeat split; assumption.
Qed.

Lemma rating_validator_float (l : list loc_item) (r : Q) (x : option Q) :
  rating_validator l (VFloat r) = inr x ->
  x = Some r /\ Qle_bool 0 r = true /\ Qle_bool r 5 = true.
Proof.
  unfold rating_validator, check_ge, check_le. cbn [float_validator vbind].
  destruct (Qle_bool 0 r); cbn [vbind]; [|discriminate].
  destruct (Qle_bool r 5); cbn [vbind]; [|discriminate].
  now intros [= <-].
Qed.

(** X1: a Product returned by [serialize_product] has a price of at least
    0 and a rating that is a number of [0,5], never null, whatever the
    stored document. *)
Theorem serialize_product_in_range
    (display : value -> string) (doc : value) (p : Product) :
  serialize_product display doc = Ok p ->
  (0 <= price p)%Q /\ exists r, rating p = Some r /\ (0 <= r)%Q /\ (r <= 5)%Q.
Proof.
  destruct doc; try discriminate. intros H.
  apply serialize_product_inv in H
    as (pr & r & tg & _ & _ & _ & _ & _ & Hp & _ & _ & Hr & _).
  split.
  - apply Qle_bool_iff. exact (price_validator_ge _ _ _ Hp).
  - apply rating_validator_float in Hr as (-> & H1 & H2).
    exists r. repeat split; now apply Qle_bool_iff.
Qed.

Lemma serialize_product_in_range_witness :
  exists r, rating (demo_product "65f0c0ffee65f0c0ffee0004") = Some r /\
            (0 <= r)%Q /\ (r <= 5)%Q.
Proof.
  exact (proj2 (serialize_product_in_range (display example_library)
                  (VDict (demo_document (VObjectId "65f0c0ffee65f0c0ffee0004")))
                  (demo_product "65f0c0ffee65f0c0ffee0004") eq_refl)).
Defined.

Lemma str_validator_read (l : list loc_item) (fv : option value) (t : string) :
  str_validator l (default (VStr "") fv) = inr t -> read_text fv = Some t.
Proof. destruct fv as [[]|]; simpl; intros [= <-]; reflexivity. Qed.

Lemma opt_str_validator_read (l : list loc_item) (fv : option value)
    (t : option string) :
  opt_str_validator l (default VNone fv) = inr t -> read_optional_text fv = Some t.
Proof. destruct fv as [[]|]; simpl; intros [= <-]; reflexivity. Qed.

(** X2: for a stored document made of nulls, booleans, numbers, texts,
    lists, dictionaries and ObjectIds, when [serialize_product] returns a
    Product, its id is [str] of the stored [_id] ("None" when there is
    none), its title and category are the stored texts (empty when
    absent), its description and image the stored texts (null when absent
    or null); a title, category, description or image of another of these
    kinds makes the conversion raise. *)
Theorem serialize_product_copies_text
    (display : value -> string) (d : document) (p : Product) :
  serialize_product display (VDict d) = Ok p ->
  id p = py_str display (default VNone (d !! "_id")) /\
  read_text (d !! "title") = Some (title p) /\
  read_text (d !! "category") = Some (category p) /\
  read_optional_text (d !! "description") = Some (description p) /\
  read_optional_text (d !! "image") = Some (image p).
Proof.
  intros H. apply serialize_product_inv in H
    as (pr & r & tg & _ & _ & _ & Ht & Hd & _ & Hc & Hi & _ & _ & Hid).
  split; [exact Hid|].
  split; [exact (str_validator_read _ _ _ Ht)|].
  split; [exact (str_validator_read _ _ _ Hc)|].
  split; [exact (opt_str_validator_read _ _ _ Hd)|].
  exact (opt_str_validator_read _ _ _ Hi).
Qed.

Lemma serialize_product_copies_text_witness :
  id (demo_product "65f0c0ffee65f0c0ffee0004")
  = py_str (display example_library) (default VNone
      (demo_document (VObjectId "65f0c0ffee65f0c0ffee0004") !! "_id")) /\
  read_text (demo_document (VObjectId "65f0c0ffee65f0c0ffee0004") !! "title")
  = Some "Sample Book".
Proof.
  destruct (serialize_product_copies_text (display example_library)
              (demo_document (VObjectId "65f0c0ffee65f0c0ffee0004"))
              (demo_product "65f0c0ffee65f0c0ffee0004") eq_refl)
    as (H1 & H2 & _).
  split; [exact H1|exact H2].
Defined.

(** X3: a stored document whose price is null makes [serialize_product]
    raise a TypeError, whatever its other fields: the price has no [or 0]
    fallback, unlike the rating. *)
Theorem serialize_product_null_price_raises
    (display : value -> string) (d : document) :
  d !! "price" = Some VNone ->
  serialize_product display (VDict d)
  = Raise (PyErr TypeError "float() argument must be a string or a real number").
Proof. intros H. rewrite serialize_product_dict, H. reflexivity. Qed.

Lemma serialize_product_null_price_raises_witness :
  serialize_product (display example_library)
    (VDict (<["price" := VNone]> sparse_document))
  = Raise (PyErr TypeError "float() argument must be a string or a real number").
Proof.
  apply serialize_product_null_price_raises. vm_compute. reflexivity.
Defined.

(** ** What [ProductIn] accepts *)

Lemma validate_ProductIn_all_fields (data : document) (p : ProductIn) :
  validate_ProductIn data = inr p ->
  required data "title" str_validator = inr (title p) /\
  defaulted data "description" None opt_str_validator = inr (description p) /\
  required data "price" price_validator = inr (price p) /\
  required data "category" str_validator = inr (category p) /\
  defaulted data "image" None opt_str_validator = inr (image p) /\
  defaulted data "rating" (Some 4.5%Q) rating_validator = inr (rating p) /\
  defaulted data "tags" [] tags_validator = inr (tags p).
Proof.
  unfold validate_ProductIn. intros H.
  apply vap_inr in H as (f7 & x7 & H & E7 & ->).
  apply vap_inr in H as (f6 & x6 & H & E6 & ->).
  apply vap_inr in H as (f5 & x5 & H & E5 & ->).
  apply vap_inr in H as (f4 & x4 & H & E4 & ->).
  apply vap_inr in H as (f3 & x3 & H & E3 & ->).
  apply vap_inr in H as (f2 & x2 & H & E2 & ->).
  apply vap_inr in H as (f1 & x1 & H & E1 & ->).
  injection H as <-. simpl. repeat split; assumption.
Qed.

Lemma required_text (data : document) (name : string) (t : string) :
  required data name str_validator = inr t -> data !! name = Some (VStr t).
Proof.
  unfold required. destruct (data !! name) as [v|]; [|discriminate].
  destruct v; simpl; try discriminate. now intros [= ->].
Qed.

(** X4: a payload that lacks [title], [price] or [category] is answered
    422 with an error of type "missing" located at that field of the body,
    and the world is left as it was. *)
Theorem post_api_products_missing_field
    (w : world) (data : document) (field : string) :
  In field ["title"; "price"; "category"] ->
  data !! field = None ->
  exists errors,
    post_api_products (VDict data) w = (mk_response 422 (JValidation errors), w) /\
    In (mk_error [LField "body"; LField field] "missing") errors.
Proof.
  intros Hf Hm.
  assert (Hin : In (mk_error [LField field] "missing")
                   (errors_of (validate_ProductIn data))).
  { rewrite validate_ProductIn_errors, !in_app_iff.
    destruct Hf as [<-|[<-|[<-|[]]]].
    - left. unfold required. rewrite Hm. now left.
    - right; right; left. unfold required. rewrite Hm. now left.
    - right; right; right; left. unfold required. rewrite Hm. now left. }
  destruct (errors_of_inl _ _ Hin) as (es & Hes & Hes').
  exists (map (under "body") es). unfold post_api_products. rewrite Hes.
  split; [reflexivity|]. exact (in_map (under "body") _ _ Hes').
Qed.

Lemma post_api_products_missing_field_witness :
  exists errors,
    post_api_products (VDict (delete "category" plain_payload)) empty_world
    = (mk_response 422 (JValidation errors), empty_world) /\
    In (mk_error [LField "body"; LField "category"] "missing") errors.
Proof.
  apply post_api_products_missing_field.
  - right; right; left. reflexivity.
  - vm_compute. reflexivity.
Defined.

(** X5: a payload that [ProductIn] accepts has its title and category
    given as text and kept as they are, a price of at least 0, a rating
    that is null or in [0,5], and tags, description and image equal to the
    empty list, null and null when they are omitted. *)
Theorem validate_ProductIn_accepted (data : document) (p : ProductIn) :
  validate_ProductIn data = inr p ->
  data !! "title" = Some (VStr (title p)) /\
  data !! "category" = Some (VStr (category p)) /\
  (0 <= price p)%Q /\
  (forall r, rating p = Some r -> (0 <= r)%Q /\ (r <= 5)%Q) /\
  (data !! "tags" = None -> tags p = []) /\
  (data !! "description" = None -> description p = None) /\
  (data !! "image" = None -> image p = None).
Proof.
  intros H.
  destruct (validate_ProductIn_all_fields _ _ H)
    as (Ht & Hd & Hp & Hc & Hi & Hr & Hg).
  split; [exact (required_text _ _ _ Ht)|].
  split; [exact (required_text _ _ _ Hc)|].
  split.
  { unfold required in Hp. destruct (data !! "price"); [|discriminate].
    apply Qle_bool_iff. exact (price_validator_ge _ _ _ Hp). }
  split.
  { intros r Er. rewrite Er in Hr. unfold defaulted in Hr.
    destruct (data !! "rating").
    - destruct (rating_validator_range _ _ _ Hr) as [H1 H2].
      split; now apply Qle_bool_iff.
    - injection Hr as <-. split; discriminate. }
  unfold defaulted in Hd, Hi, Hg.
  split; [intros E; rewrite E in Hg; now injection Hg|].
  split; [intros E; rewrite E in Hd; now injection Hd|].
  intros E; rewrite E in Hi; now injection Hi.
Qed.

Lemma validate_ProductIn_accepted_witness :
  plain_payload !! "title" = Some (VStr "Atlas") /\ (0 <= inject_Z 3)%Q.
Proof.
  destruct (validate_ProductIn_accepted plain_payload
              (mk_ProductIn "Atlas" None (inject_Z 3) "books" None (Some 4.5%Q) []))
    as (H1 & _ & H3 & _).
  - vm_compute. reflexivity.
  - split; [exact H1|exact H3].
Defined.

(** ** Creating a product *)

Lemma products_log_call (c : call) (w : world) :
  products (log_call c w) = products w.
Proof. reflexivity. Qed.

(** X6: on a store that answers the insertion and the read-back, and does
    not hold the new identifier yet, [POST /api/products] answers 200 with
    the validated product unchanged in title, description, price, category,
    image and tags, with the text of the new ObjectId as id; the collection
    gains exactly that document, at its end, and the store has been called
    twice: one insertion, one read. *)
Theorem post_api_products_round_trip
    (w : world) (data : document) (p : ProductIn)
    (d : gmap string (list document)) :
  validate_ProductIn data = inr p ->
  db w = Some d ->
  faults w (length (calls w)) = None ->
  faults w (S (length (calls w))) = None ->
  id_taken (VObjectId (fresh_hex w)) (collection d "product") = false ->
  exists p' w',
    post_api_products (VDict data) w = (mk_response 200 (JProduct p'), w') /\
    id p' = fresh_hex w /\
    title p' = title p /\ description p' = description p /\
    price p' = price p /\ category p' = category p /\
    image p' = image p /\ tags p' = tags p /\
    products w' = (products w ++ [stored p (VObjectId (fresh_hex w))])%list /\
    calls w' = (calls w ++ [InsertOne "product"; FindOne "product"])%list.
Proof.
  intros Hv Hdb Hf1 Hf2 Ht.
  unfold post_api_products. rewrite Hv. unfold respond.
  rewrite (create_product_ok _ _ _ _ Hv Hdb Hf1 Hf2 Ht).
  eexists _, _. split; [reflexivity|].
  repeat (split; [reflexivity|]). split.
  - rewrite products_log_call, products_after_insert.
    unfold products. now rewrite Hdb.
  - unfold after_insert. cbn [calls log_call set_db next_oid].
    now rewrite <- app_assoc.
Qed.

Lemma post_api_products_round_trip_witness :
  exists p' w',
    post_api_products (VDict plain_payload) empty_world
    = (mk_response 200 (JProduct p'), w') /\
    id p' = "000000000000000000000000" /\ title p' = "Atlas" /\
    calls w' = [InsertOne "product"; FindOne "product"].
Proof.
  destruct (post_api_products_round_trip empty_world plain_payload
              (mk_ProductIn "Atlas" None (inject_Z 3) "books" None (Some 4.5%Q) []) ∅)
    as (p' & w' & H & Hid & Ht & _ & _ & _ & _ & _ & _ & Hc);
    try (vm_compute; reflexivity).
  exists p', w'. split; [exact H|]. split; [exact Hid|]. split; [exact Ht|exact Hc].
Defined.

(** X7: when the store fails on the insertion, [POST /api/products]
    answers 500 and the database is left as it was. *)
Theorem post_api_products_insert_fault
    (w : world) (data : document) (p : ProductIn)
    (d : gmap string (list document)) (msg : string) :
  validate_ProductIn data = inr p ->
  db w = Some d ->
  faults w (length (calls w)) = Some msg ->
  exists w',
    post_api_products (VDict data) w
    = (mk_response 500 (JText "Internal Server Error"), w') /\
    db w' = db w.
Proof.
  intros Hv Hdb Hf. unfold post_api_products. rewrite Hv. unfold respond.
  rewrite (create_product_run _ _ _ Hdb). cbv zeta. rewrite Hf.
  eexists. split; reflexivity.
Qed.

Lemma post_api_products_insert_fault_witness :
  exists w',
    post_api_products (VDict plain_payload) failing_world
    = (mk_response 500 (JText "Internal Server Error"), w') /\
    db w' = db failing_world.
Proof.
  apply (post_api_products_insert_fault failing_world plain_payload
           (mk_ProductIn "Atlas" None (inject_Z 3) "books" None (Some 4.5%Q) []) ∅
           "connection refused"); vm_compute; reflexivity.
Defined.

(** X8: when the insertion succeeds and the store then fails on the
    read-back, [POST /api/products] answers 500 although the document has
    been stored: nothing undoes the insertion. *)
Theorem post_api_products_read_back_fault
    (w : world) (data : document) (p : ProductIn)
    (d : gmap string (list document)) (msg : string) :
  validate_ProductIn data = inr p ->
  db w = Some d ->
  faults w (length (calls w)) = None ->
  id_taken (VObjectId (fresh_hex w)) (collection d "product") = false ->
  faults w (S (length (calls w))) = Some msg ->
  exists w',
    post_api_products (VDict data) w
    = (mk_response 500 (JText "Internal Server Error"), w') /\
    products w' = (products w ++ [stored p (VObjectId (fresh_hex w))])%list.
Proof.
  intros Hv Hdb Hf1 Ht Hf2. unfold post_api_products. rewrite Hv. unfold respond.
  rewrite (create_product_run _ _ _ Hdb). cbv zeta. rewrite Hf1, Ht, Hf2.
  eexists. split; [reflexivity|].
  rewrite products_log_call, products_after_insert.
  unfold products. now rewrite Hdb.
Qed.

Lemma post_api_products_read_back_fault_witness :
  exists w',
    post_api_products (VDict plain_payload) flaky_world
    = (mk_response 500 (JText "Internal Server Error"), w') /\
    products w'
    = [stored (mk_ProductIn "Atlas" None (inject_Z 3) "books" None (Some 4.5%Q) [])
              (VObjectId (fresh_hex flaky_world))].
Proof.
  apply (post_api_products_read_back_fault flaky_world plain_payload
           (mk_ProductIn "Atlas" None (inject_Z 3) "books" None (Some 4.5%Q) []) ∅
           "timed out"); vm_compute; reflexivity.
Defined.

(** ** Listing products from the store *)

Lemma list_products_run (category_ q : option string) (n : Z) (w : world)
    (d : gmap string (list document)) :
  db w = Some d ->
  list_products category_ q n w =
    match faults w (length (calls w)) with
    | Some msg => (Raise (PyErr PyMongoError msg), log_call (Find "product" n) w)
    | None =>
        if filter_compiles (store_compile w) (build_filter category_ q)
        then
          match selection (store_compile w) (build_filter category_ q)
                          (collection d "product") with
          | Some r =>
              (comprehension (serialize_product (display (lib w)))
                             (map VDict (take (Z.to_nat n) r)),
               log_call (Find "product" n) w)
          | None =>
              (Raise (PyErr PyMongoError "Regular expression is invalid"),
               log_call (Find "product" n) w)
          end
        else (Raise (PyErr PyMongoError "Regular expression is invalid"),
              log_call (Find "product" n) w)
    end.
Proof.
  intros Hdb. unfold list_products. rewrite Hdb.
  unfold bind at 1. unfold get_documents. rewrite Hdb.
  unfold find, bind, the_db, driver_call. rewrite Hdb. unfold Ok at 1. cbv beta iota.
  destruct (faults w (length (calls w))); [reflexivity|].
  unfold Ok at 1. cbv beta iota. unfold run_query.
  change (store_compile (log_call (Find "product" n) w)) with (store_compile w).
  destruct (filter_compiles _ _); [|reflexivity].
  destruct (selection _ _ _); reflexivity.
Qed.

Lemma selection_sound
    (compile : string -> string -> option (string -> bool))
    (f : filter) (docs : list document) :
  forall r, selection compile f docs = Some r ->
            Forall (fun doc => filter_holds compile f doc = Some true) r.
Proof.
  induction docs as [|doc docs IH]; intros r; cbn [selection].
  - intros [= <-]. constructor.
  - destruct (filter_holds compile f doc) as [b|] eqn:Hb; [|discriminate].
    destruct (selection compile f docs) as [r'|]; [|discriminate]. cbn.
    intros [= <-]. destruct b; [constructor|]; auto.
Qed.

Lemma comprehension_inv {A B} (f : A -> result B) (xs : list A) :
  forall ys, comprehension f xs = Ok ys -> Forall2 (fun x y => f x = Ok y) xs ys.
Proof.
  induction xs as [|x xs IH]; intros ys; cbn [comprehension].
  - intros [= <-]. constructor.
  - intros H. apply rbind_Ok in H as (y & Hy & H).
    apply rbind_Ok in H as (ys' & Hys & H). injection H as <-.
    constructor; auto.
Qed.

Lemma respond_products (h : M (list Product)) (w w' : world) (l : list Product) :
  respond JProducts h w = (mk_response 200 (JProducts l), w') ->
  h w = (inr l, w').
Proof.
  unfold respond. destruct (h w) as [[e|a] w1].
  - destruct e; discriminate.
  - now intros [= -> ->].
Qed.

Lemma limit_validator_range
    (read : string -> option Z) (raw : option string) (n : Z) :
  limit_validator read raw = inr n -> 1 <= n <= 100.
Proof.
  unfold limit_validator. destruct raw as [text|]; [|intros [= <-]; lia].
  destruct (read text) as [z|]; [|discriminate].
  destruct (Z.ltb_spec z 1); [discriminate|].
  destruct (Z.ltb_spec 100 z); [discriminate|].
  intros [= <-]. lia.
Qed.

(** The documents behind the products of a successful listing. *)
Lemma get_api_products_listed (w w' : world) (d : gmap string (list document))
    (category_ q limit : option string) (l : list Product) :
  db w = Some d ->
  get_api_products category_ q limit w = (mk_response 200 (JProducts l), w') ->
  exists n r,
    limit_validator (int_reading w) limit = inr n /\
    selection (store_compile w) (build_filter category_ q)
              (collection d "product") = Some r /\
    Forall2 (fun doc p => serialize_product (display (lib w)) (VDict doc) = Ok p)
            (take (Z.to_nat n) r) l.
Proof.
  intros Hdb. unfold get_api_products.
  destruct (limit_validator (int_reading w) limit) as [es|n]; [discriminate|].
  intros H. apply respond_products in H.
  rewrite (list_products_run _ _ _ _ _ Hdb) in H.
  destruct (faults w (length (calls w))); [discriminate|].
  destruct (filter_compiles _ _); [|discriminate].
  destruct (selection _ _ _) as [r|]; [|discriminate].
  injection H as H _. apply comprehension_inv in H.
  exists n, r. split; [reflexivity|]. split; [reflexivity|].
  now apply Forall2_fmap_l in H.
Qed.

Lemma category_clause
    (compile : string -> string -> option (string -> bool))
    (display : value -> string) (category_ q : option string) (c : string)
    (doc : document) (p : Product) :
  given category_ = Some c ->
  filter_holds compile (build_filter category_ q) doc = Some true ->
  serialize_product display (VDict doc) = Ok p ->
  category p = c.
Proof.
  intros Hc Hm Hs. unfold build_filter in Hm. rewrite Hc in Hm.
  cbn [app filter_holds clause_holds condition_holds condition_match] in Hm.
  apply serialize_product_inv in Hs
    as (pr & r & tg & _ & _ & _ & _ & _ & _ & Hcat & _).
  apply str_validator_read in Hcat.
  destruct (filter_holds _ _ doc) as [b'|]; cbn in Hm; [|discriminate].
  injection Hm as Hm. apply andb_prop in Hm as [Hm _].
  destruct (doc !! "category") as [v|]; [|discriminate].
  destruct v; try discriminate. cbn in Hcat, Hm.
  injection Hcat as <-. symmetry. now apply String.eqb_eq.
Qed.

(** X9: with a store, every product that [GET /api/products] returns for
    a non-empty [category] parameter has exactly that category (the
    comparison is exact, case included), whatever [q] and [limit] are,
    [q] being any pattern the store's engine accepts, in the modelled
    fragment or beyond it. *)
Theorem get_api_products_category_exact
    (w w' : world) (d : gmap string (list document))
    (category_ q limit : option string) (c : string) (l : list Product) :
  db w = Some d ->
  given category_ = Some c ->
  get_api_products category_ q limit w = (mk_response 200 (JProducts l), w') ->
  Forall (fun p : Product => category p = c) l.
Proof.
  intros Hdb Hc H.
  destruct (get_api_products_listed _ _ _ _ _ _ _ Hdb H) as (n & r & _ & Hsel & Hl).
  apply selection_sound in Hsel.
  pose proof (Forall_take _ (Z.to_nat n) _ Hsel) as Ht.
  clear H Hsel. revert Ht Hl. generalize (take (Z.to_nat n) r). intros docs Ht Hl.
  induction Hl as [|doc p docs ps Hs _ IH]; [constructor|].
  apply Forall_cons in Ht as [Hm Ht].
  constructor; [exact (category_clause _ _ _ _ _ _ _ Hc Hm Hs)|exact (IH Ht)].
Qed.

(** X10: a listing that [GET /api/products] returns holds at most [limit]
    products, where [limit] is the integer the framework read from the
    parameter, an integer of [1,100] (40 when absent): never more than
    100, whatever [category] and [q] are and however [limit] is spelt. *)
Theorem get_api_products_at_most_limit
    (w w' : world) (category_ q limit : option string) (l : list Product) :
  get_api_products category_ q limit w = (mk_response 200 (JProducts l), w') ->
  exists n,
    limit_validator (int_reading w) limit = inr n /\ 1 <= n <= 100 /\
    (length l <= Z.to_nat n)%nat.
Proof.
  intros H. destruct (db w) as [d|] eqn:Hdb.
  - destruct (get_api_products_listed _ _ _ _ _ _ _ Hdb H) as (n & r & Hn & _ & Hl).
    exists n. split; [exact Hn|]. split; [exact (limit_validator_range _ _ _ Hn)|].
    rewrite <- (Forall2_length _ _ _ Hl), length_take. lia.
  - unfold get_api_products in H.
    destruct (limit_validator (int_reading w) limit) as [es|n] eqn:Hn;
      [discriminate|].
    pose proof (limit_validator_range _ _ _ Hn) as Hr.
    apply respond_products in H. unfold list_products in H. rewrite Hdb in H.
    unfold bind, ObjectId_new, lift in H. cbv zeta in H.
    cbn [map comprehension Ok] in H. rewrite serialize_demo_document in H.
    injection H as <- _. exists n. split; [reflexivity|]. split; [exact Hr|].
    simpl. lia.
Qed.

Lemma get_api_products_category_exact_witness :
  Forall (fun p : Product => category p = "books") [atlas_product].
Proof.
  apply (get_api_products_category_exact wider_world
           (log_call (Find "product" 5) wider_world)
           (<["product" := [atlas_document; tea_document]]> ∅)
           (Some "books") (Some "^atlas") (Some "5.0") "books" [atlas_product]);
    reflexivity.
Defined.

Lemma get_api_products_at_most_limit_witness :
  exists n,
    limit_validator (int_reading wider_world) (Some "5.0") = inr n /\
    1 <= n <= 100 /\
    (length [atlas_product] <= Z.to_nat n)%nat.
Proof.
  apply (get_api_products_at_most_limit wider_world
           (log_call (Find "product" 5) wider_world)
           None (Some "^atlas") (Some "5.0") [atlas_product]).
  reflexivity.
Defined.

Lemma py_float_exn (v : value) (e : exn) : py_float v = inl e -> is_http e = false.
Proof.
  destruct v; simpl; try discriminate; try (intros [= <-]; reflexivity).
  destruct (float_of_string s); [discriminate|]. now intros [= <-].
Qed.

Lemma py_list_exn (v : value) (e : exn) : py_list v = inl e -> is_http e = false.
Proof. destruct v; simpl; try discriminate; intros [= <-]; reflexivity. Qed.

(** [serialize_product] raises builtin errors and validation errors only. *)
Lemma serialize_product_exn
    (display : value -> string) (doc : value) (e : exn) :
  serialize_product display doc = inl e -> is_http e = false.
Proof.
  destruct doc as [| | | | | |d|]; try (intros [= <-]; reflexivity).
  rewrite serialize_product_dict.
  destruct (py_float (default (VInt 0) (d !! "price"))) as [e1|pr] eqn:E1;
    cbn [rbind]; [intros [= <-]; exact (py_float_exn _ _ E1)|].
  destruct (py_float (py_or (default (VInt 0) (d !! "rating")) (VInt 0)))
    as [e2|r] eqn:E2; cbn [rbind]; [intros [= <-]; exact (py_float_exn _ _ E2)|].
  destruct (py_list (py_or (default (VList []) (d !! "tags")) (VList [])))
    as [e3|tg] eqn:E3; cbn [rbind]; [intros [= <-]; exact (py_list_exn _ _ E3)|].
  unfold new_Product. destruct (validate_Product _); [|discriminate].
  now intros [= <-].
Qed.

Lemma comprehension_raises {A B} (f : A -> result B) (xs : list A) (x : A) (e : exn) :
  In x xs -> f x = inl e ->
  exists x' e', In x' xs /\ f x' = inl e' /\ comprehension f xs = inl e'.
Proof.
  induction xs as [|y xs IH]; intros Hin Hx; [destruct Hin|].
  cbn [comprehension]. destruct (f y) as [ey|b] eqn:Ey.
  - exists y, ey. split; [now left|]. split; [exact Ey|reflexivity].
  - destruct Hin as [->|Hin]; [congruence|].
    destruct (IH Hin Hx) as (x' & e' & Hin' & Hx' & Hc).
    exists x', e'. split; [now right|]. split; [exact Hx'|].
    cbn [rbind]. now rewrite Hc.
Qed.

(** X11: with a store that answers, if one of the documents selected for
    a listing (within the limit) does not serialize, for instance because
    its rating is out of range, [GET /api/products] answers 500 and
    returns no product at all: the listing has no per-document recovery. *)
Theorem get_api_products_malformed_document
    (w : world) (d : gmap string (list document))
    (category_ q limit : option string) (n : Z)
    (r : list document) (doc : document) (e : exn) :
  db w = Some d ->
  limit_validator (int_reading w) limit = inr n ->
  faults w (length (calls w)) = None ->
  selection (store_compile w) (build_filter category_ q)
            (collection d "product") = Some r ->
  In doc (take (Z.to_nat n) r) ->
  serialize_product (display (lib w)) (VDict doc) = Raise e ->
  get_api_products category_ q limit w
  = (mk_response 500 (JText "Internal Server Error"),
     log_call (Find "product" n) w).
Proof.
  intros Hdb Hn Hf Hsel Hin He.
  unfold get_api_products. rewrite Hn. unfold respond.
  rewrite (list_products_run _ _ _ _ _ Hdb), Hf, Hsel.
  rewrite (selection_compiles _ _ _ _ Hsel)
    by (intros ->; now rewrite take_nil in Hin).
  destruct (comprehension_raises (serialize_product (display (lib w)))
              (map VDict (take (Z.to_nat n) r)) (VDict doc) e)
    as (x' & e' & _ & Hx' & ->); [now apply in_map|exact He|].
  apply serialize_product_exn in Hx'. now destruct e'.
Qed.

Lemma get_api_products_malformed_document_witness :
  get_api_products None None None poisoned_world
  = (mk_response 500 (JText "Internal Server Error"),
     log_call (Find "product" 40) poisoned_world).
Proof.
  apply (get_api_products_malformed_document poisoned_world
           (<["product" := [atlas_document; overrated_document]]> ∅)
           None None None 40 [atlas_document; overrated_document]
           overrated_document
           (ValidationError [mk_error [LField "rating"] "less_than_equal"])).
  - reflexivity.
  - reflexivity.
  - reflexivity.
  - rewrite collection_insert. reflexivity.
  - right; left; reflexivity.
  - vm_compute. reflexivity.
Defined.

(** ** Seeding a collection that is not empty, or a store that fails *)

(** X12: on a collection that already holds a document, seeding returns
    normally and changes nothing but the log of calls, which gains the one
    count: no document is inserted, whether the count succeeds or fails. *)
Theorem seeding_non_empty (w : world) :
  products w <> [] ->
  seed_products_if_empty w = (Ok tt, log_call (CountDocuments "product") w).
Proof.
  intros H. rewrite seed_products_if_empty_world. f_equal.
  unfold products in H. destruct (db w) as [d|] eqn:Hdb; [|congruence].
  rewrite (seed_body_run _ _ Hdb).
  destruct (faults w (length (calls w))); [reflexivity|].
  destruct (collection d "product") as [|x l]; [congruence|].
  replace (Z.of_nat (length (x :: l)) >? 0) with true; [reflexivity|].
  symmetry. apply Z.gtb_lt. simpl. lia.
Qed.

Lemma seeding_non_empty_witness :
  seed_products_if_empty stocked_world
  = (Ok tt, log_call (CountDocuments "product") stocked_world).
Proof.
  apply seeding_non_empty. unfold products, stocked_world. cbn [db].
  rewrite collection_insert. discriminate.
Defined.

Lemma for_each_app {A} (l1 l2 : list A) (body : A -> M unit) (w : world) :
  for_each (l1 ++ l2) body w =
    match for_each l1 body w with
    | (inl e, w') => (inl e, w')
    | (inr _, w') => for_each l2 body w'
    end.
Proof.
  revert w. induction l1 as [|x l1 IH]; intros w; [reflexivity|].
  cbn [app for_each]. unfold bind.
  destruct (body x w) as [[e|[]] w1]; [reflexivity|]. apply IH.
Qed.

(** The loop on a store that answers, with the state it leaves. *)
Lemma for_each_seed_one_state (docs : list document) :
  forall (w : world) (d : gmap string (list document)),
    db w = Some d ->
    (forall i, (i < length docs)%nat -> faults w (length (calls w) + i) = None) ->
    NoDup (hexes w (length docs)) ->
    (forall h, In h (hexes w (length docs)) ->
               id_taken (VObjectId h) (collection d "product") = false) ->
    exists w',
      for_each docs seed_one w = (Ok tt, w') /\
      products w'
      = (products w ++ zip_with with_id (hexes w (length docs)) docs)%list /\
      db w' <> None /\
      faults w' = faults w /\
      length (calls w') = (length (calls w) + length docs)%nat.
Proof.
  induction docs as [|s docs IH]; intros w d Hdb Hf Hn Ht.
  - exists w. split; [reflexivity|]. simpl. rewrite app_nil_r, Nat.add_0_r.
    repeat split. congruence.
  - cbn [length] in *.
    rewrite (hexes_after_insert s d) in Hn, Ht |- *.
    set (w1 := after_insert "product" s d w) in *.
    assert (Hf0 : faults w (length (calls w)) = None).
    { rewrite <- (Nat.add_0_r (length (calls w))). apply Hf. lia. }
    assert (Ht0 : id_taken (VObjectId (fresh_hex w)) (collection d "product") = false).
    { apply Ht. now left. }
    apply NoDup_cons in Hn as [Hnot Hn].
    assert (Hc1 : length (calls w1) = S (length (calls w))).
    { unfold w1, after_insert. cbn [calls set_db log_call next_oid].
      rewrite length_app. simpl. lia. }
    destruct (IH w1 (<["product" :=
                (collection d "product" ++ [with_id (fresh_hex w) s])%list]> d))
      as (w' & Hrun & Hprod & Hdb' & Hfa & Hca).
    + reflexivity.
    + intros i Hi. rewrite Hc1.
      change (faults w1) with (faults w).
      replace (S (length (calls w)) + i)%nat with (length (calls w) + S i)%nat by lia.
      apply Hf. lia.
    + exact Hn.
    + intros h Hh. rewrite collection_insert, id_taken_app, id_taken_single.
      rewrite (Ht h (or_intror Hh)). cbn [orb].
      apply String.eqb_neq. intros ->. apply Hnot.
      now apply list_elem_of_In.
    + exists w'. split; [|split; [|split; [|split]]].
      * cbn [for_each]. unfold bind at 1. unfold seed_one at 1, bind.
        rewrite (create_document_run _ _ _ _ Hdb), Hf0, Ht0.
        unfold Ok, ret. fold w1. exact Hrun.
      * rewrite Hprod. unfold w1. rewrite products_after_insert.
        unfold products. rewrite Hdb.
        cbn [zip_with]. now rewrite <- app_assoc.
      * exact Hdb'.
      * exact Hfa.
      * rewrite Hca, Hc1. lia.
Qed.

(** A failed insertion leaves the collection as it was. *)
Lemma seed_one_fault (s : document) (w : world) (msg : string) :
  db w <> None ->
  faults w (length (calls w)) = Some msg ->
  exists w', seed_one s w = (Raise (PyErr PyMongoError msg), w') /\
             products w' = products w.
Proof.
  intros Hdb Hf. destruct (db w) as [d|] eqn:E; [|congruence].
  unfold seed_one, bind. rewrite (create_document_run _ _ _ _ E), Hf.
  eexists. split; [reflexivity|].
  unfold products. cbn [db log_call next_oid]. now rewrite E.
Qed.

(** X13: on an empty collection, if the store answers the count and the
    first [k] insertions and fails on the next one, seeding still returns
    normally, and the collection is left with the first [k] samples only;
    when [k] is positive a later run inserts nothing, so the remaining
    samples are never added. *)
Theorem seeding_interrupted (w : world) (d : gmap string (list document))
    (k : nat) (msg : string) :
  db w = Some d ->
  collection d "product" = [] ->
  (k < 8)%nat ->
  (forall i, (i <= k)%nat -> faults w (length (calls w) + i) = None) ->
  faults w (length (calls w) + S k) = Some msg ->
  NoDup (hexes w k) ->
  (seed_products_if_empty w).1 = Ok tt /\
  products (seed_products_if_empty w).2
  = zip_with with_id (hexes w k) (take k samples) /\
  ((0 < k)%nat ->
   db (seed_products_if_empty (seed_products_if_empty w).2).2
   = db (seed_products_if_empty w).2).
Proof.
  intros Hdb Hc Hk Hf Hfk Hn.
  rewrite !seed_products_if_empty_world. cbn [fst snd].
  split; [reflexivity|].
  assert (Hp : products (seed_body w).2
               = zip_with with_id (hexes w k) (take k samples)).
  { rewrite (seed_body_run _ _ Hdb).
    rewrite <- (Nat.add_0_r (length (calls w))), (Hf 0%nat) by lia.
    rewrite Hc. change (Z.of_nat (length []) >? 0) with false. cbv iota.
    set (w0 := log_call (CountDocuments "product") w).
    assert (Hl : length (take k samples) = k).
    { rewrite length_take. change (length samples) with 8%nat. lia. }
    assert (Hc0 : length (calls w0) = S (length (calls w))).
    { unfold w0. cbn [calls log_call]. rewrite length_app. simpl. lia. }
    destruct (for_each_seed_one_state (take k samples) w0 d)
      as (w1 & Hrun & Hprod & Hdb1 & Hfa & Hca).
    - exact Hdb.
    - intros i Hi. rewrite Hl in Hi. rewrite Hc0.
      change (faults w0) with (faults w).
      replace (S (length (calls w)) + i)%nat with (length (calls w) + S i)%nat by lia.
      apply Hf. lia.
    - rewrite Hl. exact Hn.
    - intros h _. now rewrite Hc.
    - rewrite <- (take_drop k samples) at 1. rewrite for_each_app, Hrun.
      destruct (drop k samples) as [|x rest] eqn:Hd.
      { apply (f_equal length) in Hd. rewrite length_drop in Hd.
        change (length samples) with 8%nat in Hd. simpl in Hd. lia. }
      cbn [for_each]. unfold bind at 1.
      destruct (seed_one_fault x w1 msg Hdb1) as (w2 & -> & Hp2).
      + rewrite Hfa, Hca, Hl, Hc0.
        change (faults w0) with (faults w).
        replace (S (length (calls w)) + k)%nat with (length (calls w) + S k)%nat by lia.
        exact Hfk.
      + unfold Ok, Raise. cbn [snd]. rewrite Hp2, Hprod, Hl.
        unfold products, w0. cbn [db log_call]. now rewrite Hdb, Hc. }
  split; [exact Hp|].
  intros Hpos. apply (proj1 (seed_body_effect (seed_body w).2)).
  intros E. rewrite Hp in E. apply (f_equal length) in E.
  rewrite length_zip_with, length_take in E. unfold hexes in E.
  rewrite length_map, length_seq in E.
  change (length samples) with 8%nat in E. simpl in E. lia.
Qed.

Lemma seeding_interrupted_witness :
  (seed_products_if_empty interrupted_world).1 = Ok tt /\
  products (seed_products_if_empty interrupted_world).2
  = zip_with with_id (hexes interrupted_world 2) (take 2 samples) /\
  ((0 < 2)%nat ->
   db (seed_products_if_empty (seed_products_if_empty interrupted_world).2).2
   = db (seed_products_if_empty interrupted_world).2).
Proof.
  apply (seeding_interrupted interrupted_world ∅ 2 "timed out").
  - reflexivity.
  - reflexivity.
  - lia.
  - intros i Hi. destruct i as [|[|[|i]]]; [reflexivity..|lia].
  - reflexivity.
  - apply (bool_decide_unpack _). vm_compute. exact I.
Defined.

(** ** The diagnostic endpoint *)

Lemma get_test_run (w : world) :
  get_test w =
    match db w with
    | None =>
        (mk_response 200
           (JReport (mk_report "✅ Running" "❌ Not Available" None None
                               "Not Connected" [])), w)
    | Some d =>
        match faults w (length (calls w)) with
        | Some msg =>
            (mk_response 200
               (JReport (set_database
                           ("⚠️ Connected but Error: " +:+ slice_to 50 msg)
                           (configured_report w))),
             log_call ListCollectionNames w)
        | None =>
            (mk_response 200
               (JReport (set_database "✅ Connected & Working"
                           (set_collections (take 10 (map fst (map_to_list d)))
                              (configured_report w)))),
             log_call ListCollectionNames w)
        end
    end.
Proof.
  unfold get_test, respond, test_database, try_except.
  destruct (db w) as [d|] eqn:Hdb; [|reflexivity].
  unfold bind, getenv, list_collection_names, bind, the_db, driver_call.
  rewrite Hdb. cbn [Ok].
  destruct (faults w (length (calls w))); reflexivity.
Qed.

(** X14: [GET /test] never changes the database or the environment; it
    calls the store exactly once, to list the collection names, when a
    store is configured, and not at all otherwise. *)
Theorem get_test_effects (w : world) :
  db (get_test w).2 = db w /\
  environ (get_test w).2 = environ w /\
  calls (get_test w).2
  = (calls w ++ if db w is Some _ then [ListCollectionNames] else [])%list.
Proof.
  rewrite get_test_run. destruct (db w) as [d|] eqn:Hdb.
  - destruct (faults w (length (calls w))); cbn [snd db environ calls log_call];
      auto.
  - cbn [snd]. rewrite Hdb, app_nil_r. auto.
Qed.

(** X15: in the report of [GET /test], [backend] is always "Running";
    [connection_status] is "Connected" exactly when a store is configured,
    even if the call to it fails; [database_url] only says whether the
    variable is set, never its value; and when the store answers,
    [database] is "Connected & Working" and [collections] are the first
    ten collection names. *)
Theorem get_test_report (w w' : world) (r : report) :
  get_test w = (mk_response 200 (JReport r), w') ->
  backend r = "✅ Running" /\
  (connection_status r = "Connected" <-> db w <> None) /\
  (database_url r = None \/ database_url r = Some "✅ Set" \/
   database_url r = Some "❌ Not Set") /\
  (forall d,
     db w = Some d -> faults w (length (calls w)) = None ->
     database r = "✅ Connected & Working" /\
     collections r = take 10 (map fst (map_to_list d))).
Proof.
  rewrite get_test_run. destruct (db w) as [d|] eqn:Hdb.
  - assert (Hurl : forall o : option string,
              Some (if o is Some _ then "✅ Set" else "❌ Not Set") = None \/
              Some (if o is Some _ then "✅ Set" else "❌ Not Set") = Some "✅ Set" \/
              Some (if o is Some _ then "✅ Set" else "❌ Not Set") = Some "❌ Not Set")
      by (intros []; auto).
    destruct (faults w (length (calls w))) as [msg|]; intros [= <- _];
      (split; [reflexivity|]); (split; [split; [congruence|reflexivity]|]);
      (split; [apply Hurl|]).
    + intros d' _ [=].
    + intros d' [= <-] _. split; reflexivity.
  - intros [= <- _]. split; [reflexivity|].
    split; [split; [discriminate|congruence]|].
    split; [now left|]. intros d' [=].
Qed.

Lemma get_test_report_witness :
  backend (configured_report failing_world) = "✅ Running" /\
  connection_status
    (set_database ("⚠️ Connected but Error: " +:+ slice_to 50 "connection refused")
                  (configured_report failing_world)) = "Connected".
Proof.
  destruct (get_test_report failing_world (log_call ListCollectionNames failing_world)
              (set_database
                 ("⚠️ Connected but Error: " +:+ slice_to 50 "connection refused")
                 (configured_report failing_world)))
    as (H1 & H2 & _).
  - vm_compute. reflexivity.
  - split; [exact H1|]. apply H2. discriminate.
Defined.

(** ** Listing after seeding *)

Lemma selection_all
    (compile : string -> string -> option (string -> bool))
    (docs : list document) :
  selection compile [] docs = Some docs.
Proof.
  induction docs as [|doc docs IH]; [reflexivity|].
  cbn [selection filter_holds]. rewrite IH. reflexivity.
Qed.

(** The samples, once stored, serialize to themselves. *)
Lemma serialize_samples
    (display : value -> string) (h1 h2 h3 h4 h5 h6 h7 h8 : string) :
  exists l,
    comprehension (serialize_product display)
      (map VDict (zip_with with_id [h1; h2; h3; h4; h5; h6; h7; h8] samples))
    = Ok l /\
    map id l = [h1; h2; h3; h4; h5; h6; h7; h8] /\
    map (fun p : Product => toStoredDocument p) l = samples.
Proof.
  eexists. split; [reflexivity|]. split; reflexivity.
Qed.

(** The first run on an empty collection of a store that answers, with the
    state it leaves. *)
Lemma seed_body_first_run_state (w : world) (d : gmap string (list document)) :
  db w = Some d ->
  collection d "product" = [] ->
  (forall i, (i < 9)%nat -> faults w (length (calls w) + i) = None) ->
  NoDup (hexes w 8) ->
  products (seed_body w).2 = zip_with with_id (hexes w 8) samples /\
  db (seed_body w).2 <> None /\
  faults (seed_body w).2 = faults w /\
  length (calls (seed_body w).2) = (length (calls w) + 9)%nat.
Proof.
  intros Hdb Hc Hf Hn.
  rewrite (seed_body_run _ _ Hdb).
  rewrite <- (Nat.add_0_r (length (calls w))), (Hf 0%nat) by lia.
  rewrite Hc. change (Z.of_nat (length []) >? 0) with false. cbv iota.
  set (w0 := log_call (CountDocuments "product") w).
  assert (Hc0 : length (calls w0) = S (length (calls w))).
  { unfold w0. cbn [calls log_call]. rewrite length_app. simpl. lia. }
  destruct (for_each_seed_one_state samples w0 d)
    as (w1 & Hrun & Hprod & Hdb1 & Hfa & Hca).
  - exact Hdb.
  - intros i Hi. rewrite Hc0. change (faults w0) with (faults w).
    replace (S (length (calls w)) + i)%nat with (length (calls w) + S i)%nat by lia.
    apply Hf. simpl in Hi. lia.
  - exact Hn.
  - intros h _. now rewrite Hc.
  - rewrite Hrun. cbn [snd]. split; [|split; [exact Hdb1|split]].
    + rewrite Hprod. unfold products, w0. cbn [db log_call].
      rewrite Hdb, Hc. reflexivity.
    + exact Hfa.
    + rewrite Hca, Hc0. simpl. lia.
Qed.

(** X16: after seeding an empty collection of a store that answers (with
    distinct new identifiers), [GET /api/products] without parameters
    answers 200 with 8 products, in the order of the samples: their ids
    are the new identifiers and each of them, mapped back to a stored
    document, is the sample it was made from. *)
Theorem seed_then_list (w : world) (d : gmap string (list document)) :
  db w = Some d ->
  collection d "product" = [] ->
  (forall i, (i < 10)%nat -> faults w (length (calls w) + i) = None) ->
  NoDup (hexes w 8) ->
  exists l w',
    get_api_products None None None (seed_products_if_empty w).2
    = (mk_response 200 (JProducts l), w') /\
    map id l = hexes w 8 /\
    map (fun p : Product => toStoredDocument p) l = samples.
Proof.
  intros Hdb Hc Hf Hn. rewrite seed_products_if_empty_world. cbn [snd].
  destruct (seed_body_first_run_state w d Hdb Hc) as (Hp & Hdb1 & Hfa & Hca);
    [intros i Hi; apply Hf; lia|exact Hn|].
  set (w1 := (seed_body w).2) in *.
  destruct (db w1) as [d1|] eqn:E1; [|congruence].
  unfold get_api_products. cbn [limit_validator]. unfold respond.
  rewrite (list_products_run _ _ _ _ _ E1), Hfa, Hca, (Hf 9%nat) by lia.
  change (build_filter None None) with (@nil clause).
  change (filter_compiles (store_compile w1) []) with true. cbv iota.
  rewrite selection_all.
  unfold products in Hp. rewrite E1 in Hp. rewrite Hp.
  rewrite take_ge
    by (rewrite length_zip_with; unfold hexes;
        rewrite length_map, length_seq; vm_compute; lia).
  unfold hexes. cbn [seq map].
  match goal with
  | |- context [zip_with with_id [?h1; ?h2; ?h3; ?h4; ?h5; ?h6; ?h7; ?h8] samples] =>
      destruct (serialize_samples (display (lib w1)) h1 h2 h3 h4 h5 h6 h7 h8)
        as (l & Hl & Hid & Hst)
  end.
  rewrite Hl. eexists _, _. split; [reflexivity|]. split; assumption.
Qed.

Lemma seed_then_list_witness :
  exists l w',
    get_api_products None None None (seed_products_if_empty empty_world).2
    = (mk_response 200 (JProducts l), w') /\
    map id l = hexes empty_world 8 /\
    map (fun p : Product => toStoredDocument p) l = samples.
Proof.
  apply (seed_then_list empty_world ∅).
  - reflexivity.
  - reflexivity.
  - intros i _. reflexivity.
  - apply (bool_decide_unpack _). vm_compute. exact I.
Defined.
